(** * Event staffing and guest check-in: the server of dawaati

    A shallow embedding of [server/routes.ts] and [server/storage.ts]:
    the relational tables are lists of rows (insertion order, duplicates
    allowed), every route handler is a function from the store to a
    response and a new store, and the check-in route is also given as a
    small-step machine so that two requests can be interleaved. *)

From stdpp Require Import base strings list gmap pretty sorting.
From Stdlib Require Import Ascii String ZArith Lia.

Open Scope string_scope.
Open Scope Z_scope.

(** ** JavaScript values as the handlers use them *)

Module Js.

(** [!s] is true for the empty string and for [undefined]. *)
Definition truthy (s : string) : bool := negb (bool_decide (s = "")).

Definition truthy_opt (o : option string) : bool :=
  match o with
  | Some s => truthy s
  | None => false
  end.

(** [a || b] on a possibly missing string. *)
Definition or_else (o : option string) (d : string) : string :=
  match o with
  | Some s => if truthy s then s else d
  | None => d
  end.

(** What [String.prototype.toLowerCase] does to text that is ASCII
    throughout: A-Z go to a-z, every other character stays. On other text
    the method follows the Unicode case tables, which this file leaves to
    the environment (class [Env]). *)
Definition lower_ascii (c : ascii) : ascii :=
  let n := nat_of_ascii c in
  if (Nat.leb 65 n && Nat.leb n 90)%bool then ascii_of_nat (n + 32) else c.

Fixpoint asciiLower (s : string) : string :=
  match s with
  | EmptyString => EmptyString
  | String c r => String (lower_ascii c) (asciiLower r)
  end.

Fixpoint isAscii (s : string) : bool :=
  match s with
  | EmptyString => true
  | String c r => (Nat.ltb (nat_of_ascii c) 128 && isAscii r)%bool
  end.

(** A finite JavaScript number: [mantissa * 2 ^ exponent]. *)
Record number := mkNumber { mantissa : Z; exponent : Z }.

Definition ofZ (n : Z) : number := mkNumber n 0.

(** A spreadsheet cell as [XLSX.utils.sheet_to_json] delivers it: text, a
    number or a boolean. *)
Inductive cell :=
| CStr (s : string)
| CNum (x : number)
| CBool (b : bool).

Definition cell_truthy (c : cell) : bool :=
  match c with
  | CStr s => truthy s
  | CNum x => negb (mantissa x =? 0)
  | CBool b => b
  end.

(** [String(c)] and [c.toString()]; [numberToString] is the text of a
    number, which the environment gives. *)
Definition cell_toString (numberToString : number -> string) (c : cell) : string :=
  match c with
  | CStr s => s
  | CNum x => numberToString x
  | CBool true => "true"
  | CBool false => "false"
  end.

(** A request body: any JSON value. *)
#[warnings="-register-all"]
Inductive json :=
| Null
| Bool (b : bool)
| Num (x : number)
| Str (s : string)
| Arr (l : list json)
| Obj (fields : list (string * json)).

(** [row[k1] || row[k2] || ... || d]: the first truthy cell among the
    keys, else the default. *)
Fixpoint first_truthy (row : gmap string cell) (keys : list string) (d : cell) : cell :=
  match keys with
  | [] => d
  | k :: ks =>
      match row !! k with
      | Some c => if cell_truthy c then c else first_truthy row ks d
      | None => first_truthy row ks d
      end
  end.

End Js.

(** ** The five record kinds of [@shared/schema] *)

(** Modelled from the spec: the table declarations of [@shared/schema] are
    not among the sources. The fields are those of section 3 of the
    specification, under the names the routes and the storage class use. *)

Module User.
Record t := mk {
  id : string;
  username : string;
  password : string;
  name : string;
  role : string;
  isActive : bool;
  createdById : option string;
  eventQuota : Z;
  createdAt : Z
}.
End User.

Module Event.
Record t := mk {
  id : string;
  name : string;
  description : option string;
  location : option string;
  date : Z;
  startTime : option string;
  endTime : option string;
  eventManagerId : string;
  isActive : bool;
  createdAt : Z
}.
End Event.

Module Guest.
Record t := mk {
  id : string;
  eventId : string;
  name : string;
  phone : string;
  category : string;
  companions : Z;
  notes : string;
  qrCode : string;
  isCheckedIn : bool;
  checkedInAt : option Z;
  checkedInBy : option string
}.

(** The [set] clause of [checkInGuest]. *)
Definition checkedIn (now : Z) (organizerId : string) (g : t) : t :=
  mk (id g) (eventId g) (name g) (phone g) (category g) (companions g)
     (notes g) (qrCode g) true (Some now) (Some organizerId).
End Guest.

Module EventOrganizer.
Record t := mk {
  id : string;
  eventId : string;
  organizerId : string
}.
End EventOrganizer.

Module AuditLog.
Record t := mk {
  id : string;
  eventId : string;
  userId : string;
  action : string;
  details : string;
  guestId : option string;
  timestamp : Z
}.
End AuditLog.

(** A guest row before the database fills in its defaults. *)
Module InsertGuest.
Record t := mk {
  eventId : string;
  name : string;
  phone : string;
  category : string;
  companions : Z;
  notes : string;
  qrCode : string
}.

Definition inserted (id : string) (g : t) : Guest.t :=
  Guest.mk id (eventId g) (name g) (phone g) (category g) (companions g)
           (notes g) (qrCode g) false None None.
End InsertGuest.

(** An event row before the database fills in its defaults. *)
Module InsertEvent.
Record t := mk {
  name : string;
  description : option string;
  location : option string;
  date : Z;
  startTime : option string;
  endTime : option string;
  eventManagerId : string;
  isActive : bool
}.

Definition inserted (id : string) (now : Z) (e : t) : Event.t :=
  Event.mk id (name e) (description e) (location e) (date e) (startTime e)
           (endTime e) (eventManagerId e) (isActive e) now.
End InsertEvent.

(** A user as the routes send it: [{ ...user, password: undefined }]. *)
Module PublicUser.
Record t := mk {
  id : string;
  username : string;
  name : string;
  role : string;
  isActive : bool;
  createdById : option string;
  eventQuota : Z;
  createdAt : Z
}.

Definition strip (u : User.t) : t :=
  mk (User.id u) (User.username u) (User.name u) (User.role u)
     (User.isActive u) (User.createdById u) (User.eventQuota u)
     (User.createdAt u).
End PublicUser.

(** The four role names. *)
Definition super_admin : string := "super_admin".
Definition admin : string := "admin".
Definition event_manager : string := "event_manager".
Definition organizer : string := "organizer".

(** ** The database: one list of rows per table *)

(** Modelled from the spec: section 1 takes the persistence layer as a
    generic keyed-record store, and section 4.4 says that a duplicate
    assignment is not rejected. So a table is the list of its rows in
    insertion order, an insert always succeeds, and no uniqueness or
    foreign-key constraint is modelled. *)

Record Store := mkStore {
  users : list User.t;
  events : list Event.t;
  guests : list Guest.t;
  eventOrganizers : list EventOrganizer.t;
  auditLogs : list AuditLog.t;
  (** number of rows inserted so far; feeds the id default of each table *)
  serial : nat
}.

(** ** What the server imports and this development leaves open *)

(** The body of [POST /api/users]. *)
Record UserBody := mkUserBody {
  body_role : string;
  body_username : string;
  body_password : string;
  body_name : string;
  body_eventQuota : option Z
}.

Class Env := {
  (** [createHash("sha256").update(password).digest("hex")] *)
  hashPassword : string -> string;
  (** [insertUserSchema.safeParse(body).success] *)
  insertUserSchema : UserBody -> bool;
  (** the [gen_random_uuid()] default of the id columns *)
  gen_random_uuid : nat -> string;
  (** [randomUUID()] of node's crypto, used for the check-in tokens *)
  randomUUID : nat -> string;
  (** [parseInt(s)]; [None] is NaN *)
  parseInt : string -> option Z;
  (** [new Date(s)]; [None] is the Invalid Date that an unreadable text
      gives *)
  newDate : string -> option Z;
  (** [s.toLowerCase()], which on ASCII text is [Js.asciiLower] *)
  toLowerCase : string -> string;
  toLowerCase_ascii : ∀ s, Js.isAscii s = true -> toLowerCase s = Js.asciiLower s;
  (** [String(x)] of a number, which for an integer up to 2^53 in size is
      its decimal numeral *)
  numberToString : Js.number -> string;
  numberToString_safe :
    ∀ n, Z.abs n ≤ 2 ^ 53 -> numberToString (Js.ofZ n) = pretty n;
  (** [db.update(events).set(body)]: what the update writes into a row for
      this body; [None] when it throws (nothing to set, a value that the
      column does not take) *)
  setEvent : Js.json -> option (Event.t -> Event.t);
  (** the column default of [users.event_quota] *)
  defaultEventQuota : Z
}.

(** ** [DatabaseStorage] *)

Module Storage.
Section WithEnv.
Context {E : Env}.

(** [const [row] = await db.select()...where(...)]: the first match. *)
Definition getUser (st : Store) (id : string) : option User.t :=
  head (filter (λ u, User.id u = id) (users st)).

Definition getUserByUsername (st : Store) (username : string) : option User.t :=
  head (filter (λ u, User.username u = username) (users st)).

Definition getEvent (st : Store) (id : string) : option Event.t :=
  head (filter (λ e, Event.id e = id) (events st)).

Definition getGuest (st : Store) (id : string) : option Guest.t :=
  head (filter (λ g, Guest.id g = id) (guests st)).

(** [db.insert(users).values(insertUser).returning()]: the row gets its
    id and creation time from the column defaults. *)
Definition createUser (now : Z) (body : UserBody) (hashed : string)
    (createdById : string) (st : Store) : User.t * Store :=
  let user :=
    User.mk (gen_random_uuid (serial st)) (body_username body) hashed
            (body_name body) (body_role body) true (Some createdById)
            (default defaultEventQuota (body_eventQuota body)) now in
  (user,
   mkStore (users st ++ [user]) (events st) (guests st)
           (eventOrganizers st) (auditLogs st) (S (serial st))).

Definition createEvent (now : Z) (insertEvent : InsertEvent.t)
    (st : Store) : Event.t * Store :=
  let event := InsertEvent.inserted (gen_random_uuid (serial st)) now insertEvent in
  (event,
   mkStore (users st) (events st ++ [event]) (guests st)
           (eventOrganizers st) (auditLogs st) (S (serial st))).

(** [createGuests]: nothing is sent to the database for an empty list;
    otherwise one insert of all rows, each with a fresh id. *)
Definition createGuests (insertGuests : list InsertGuest.t) (st : Store)
    : list Guest.t * Store :=
  match insertGuests with
  | [] => ([], st)
  | _ =>
      let created :=
        imap (λ i g, InsertGuest.inserted (gen_random_uuid (serial st + i)%nat) g)
             insertGuests in
      (created,
       mkStore (users st) (events st) (guests st ++ created)
               (eventOrganizers st) (auditLogs st)
               (serial st + List.length insertGuests)%nat)
  end.

(** [update guests set ... where id = $1 returning *]: no condition on
    [isCheckedIn]. *)
Definition checkInGuest (now : Z) (id organizerId : string) (st : Store)
    : option Guest.t * Store :=
  let guests' :=
    (λ g, if bool_decide (Guest.id g = id)
          then Guest.checkedIn now organizerId g else g) <$> guests st in
  (head (filter (λ g, Guest.id g = id) guests'),
   mkStore (users st) (events st) guests'
           (eventOrganizers st) (auditLogs st) (serial st)).

Definition getOrganizerEvents (st : Store) (organizerId : string) : list Event.t :=
  let assignments :=
    filter (λ a, EventOrganizer.organizerId a = organizerId) (eventOrganizers st) in
  match assignments with
  | [] => []
  | _ =>
      let eventIds := EventOrganizer.eventId <$> assignments in
      let eventList := getEvent st <$> eventIds in
      omap (λ e, match e with
                 | Some e => if Event.isActive e then Some e else None
                 | None => None
                 end) eventList
  end.

Definition assignOrganizer (eventId organizerId : string) (st : Store)
    : EventOrganizer.t * Store :=
  let assignment :=
    EventOrganizer.mk (gen_random_uuid (serial st)) eventId organizerId in
  (assignment,
   mkStore (users st) (events st) (guests st)
           (eventOrganizers st ++ [assignment]) (auditLogs st) (S (serial st))).

Definition removeOrganizer (eventId organizerId : string) (st : Store) : Store :=
  mkStore (users st) (events st) (guests st)
          (filter (λ a, ¬ (EventOrganizer.eventId a = eventId
                           ∧ EventOrganizer.organizerId a = organizerId))
                  (eventOrganizers st))
          (auditLogs st) (serial st).

Definition createAuditLog (now : Z) (eventId userId action details : string)
    (guestId : option string) (st : Store) : AuditLog.t * Store :=
  let log :=
    AuditLog.mk (gen_random_uuid (serial st)) eventId userId action details
                guestId now in
  (log,
   mkStore (users st) (events st) (guests st) (eventOrganizers st)
           (auditLogs st ++ [log]) (S (serial st))).

End WithEnv.
End Storage.

(** ** Responses *)

Inductive Json :=
| JError (error : string)
| JLogin (user : PublicUser.t)
| JUser (user : PublicUser.t)
| JEvent (event : Event.t)
| JUpload (count : nat) (created : list Guest.t)
| JInvalid (message : string)
| JDuplicate (guest : Guest.t) (message : string)
             (checkedInAt : option Z) (checkedInBy : string)
| JSuccess (guest : option Guest.t) (message : string)
| JAssignment (assignment : EventOrganizer.t)
| JOk.

Record Response := reply { status : Z; json : Json }.

Definition msg_unauthorized : string := "غير مصرح".
Definition msg_forbidden : string := "غير مسموح".
Definition msg_missing : string := "بيانات ناقصة".
Definition msg_bad_login : string := "بيانات الدخول غير صحيحة".
Definition msg_disabled : string := "الحساب غير مفعل".
Definition msg_invalid_data : string := "بيانات غير صالحة".
Definition msg_username_taken : string := "اسم المستخدم مستخدم مسبقاً".
Definition msg_event_required : string := "اسم المناسبة والتاريخ مطلوبان".
Definition msg_event_failed : string := "خطأ في إنشاء المناسبة".
Definition msg_no_file : string := "لم يتم رفع ملف".
Definition msg_guest_not_found : string := "الضيف غير موجود".
Definition msg_duplicate : string := "تم استخدام هذه الدعوة مسبقاً!".
Definition msg_checked_in : string := "تم تسجيل الحضور بنجاح".
Definition msg_unknown : string := "غير معروف".

(** The outcome names of the specification, read off a response. *)
Inductive Outcome :=
| Success | Duplicate | Invalid | Forbidden | Unauthorized
| ValidationError | InvalidCredentials | AccountDisabled | Other.

Definition outcome (r : Response) : Outcome :=
  match json r with
  | JSuccess _ _ | JLogin _ | JUser _ | JEvent _ | JUpload _ _
  | JAssignment _ | JOk => Success
  | JDuplicate _ _ _ _ => Duplicate
  | JInvalid _ => Invalid
  | JError m =>
      if status r =? 400 then ValidationError
      else if status r =? 403 then
        (if bool_decide (m = msg_disabled) then AccountDisabled else Forbidden)
      else if status r =? 401 then
        (if bool_decide (m = msg_bad_login) then InvalidCredentials else Unauthorized)
      else Other
  end.

(** ** The routes of [registerRoutes] *)

Record LoginBody := mkLoginBody {
  login_username : option string;
  login_password : option string
}.

Record EventBody := mkEventBody {
  ev_name : option string;
  ev_description : option string;
  ev_location : option string;
  ev_date : option string;
  ev_startTime : option string;
  ev_endTime : option string
}.

Module Routes.
Section WithEnv.
Context {E : Env}.
Import Storage.

(** *** Middleware *)

Definition requireAuth (session : option string) : option Response :=
  if Js.truthy_opt session then None else Some (reply 401 (JError msg_unauthorized)).

Definition requireRole (roles : list string) (session : option string) (st : Store)
    : Response + User.t :=
  match session with
  | Some userId =>
      if Js.truthy userId then
        match getUser st userId with
        | Some user =>
            if bool_decide (User.role user ∈ roles) then inr user
            else inl (reply 403 (JError msg_forbidden))
        | None => inl (reply 403 (JError msg_forbidden))
        end
      else inl (reply 401 (JError msg_unauthorized))
  | None => inl (reply 401 (JError msg_unauthorized))
  end.

(** *** POST /api/auth/login: the response and the session afterwards *)

Definition login (body : LoginBody) (session : option string) (st : Store)
    : Response * option string :=
  if negb (Js.truthy_opt (login_username body))
     || negb (Js.truthy_opt (login_password body))
  then (reply 400 (JError msg_missing), session)
  else
    let username := default "" (login_username body) in
    let password := default "" (login_password body) in
    let user := getUserByUsername st username in
    let hashedPassword := hashPassword password in
    match user with
    | None => (reply 401 (JError msg_bad_login), session)
    | Some user =>
        if negb (bool_decide (User.password user = hashedPassword))
        then (reply 401 (JError msg_bad_login), session)
        else if negb (User.isActive user)
        then (reply 403 (JError msg_disabled), session)
        else (reply 200 (JLogin (PublicUser.strip user)), Some (User.id user))
    end.

(** *** POST /api/users *)

Definition createAccount (now : Z) (currentUser : User.t) (body : UserBody)
    (st : Store) : Response * Store :=
  let role := body_role body in
  if bool_decide (role = admin)
     && negb (bool_decide (User.role currentUser = super_admin))
  then (reply 403 (JError msg_forbidden), st)
  else if bool_decide (role = event_manager)
          && negb (bool_decide (User.role currentUser ∈ [super_admin; admin]))
  then (reply 403 (JError msg_forbidden), st)
  else if bool_decide (role = organizer)
          && negb (bool_decide (User.role currentUser = event_manager))
  then (reply 403 (JError msg_forbidden), st)
  else if negb (insertUserSchema body)
  then (reply 400 (JError msg_invalid_data), st)
  else
    match getUserByUsername st (body_username body) with
    | Some _ => (reply 400 (JError msg_username_taken), st)
    | None =>
        let '(newUser, st') :=
          createUser now body (hashPassword (body_password body))
                     (User.id currentUser) st in
        (reply 200 (JUser (PublicUser.strip newUser)), st')
    end.

Definition postUsers (now : Z) (session : option string) (body : UserBody)
    (st : Store) : Response * Store :=
  match requireAuth session with
  | Some r => (r, st)
  | None =>
      match getUser st (default "" session) with
      | None => (reply 401 (JError msg_unauthorized), st)
      | Some currentUser => createAccount now currentUser body st
      end
  end.

(** *** POST /api/events *)

(** [date] is the Date object [new Date(req.body.date)] when the body has
    a date text, and any Date object passes the test [!eventData.date]. For
    an Invalid Date the insert throws, the handler's [catch] answers 500 and
    nothing is stored. *)
Definition createEvent (now : Z) (user : User.t) (body : EventBody)
    (st : Store) : Response * Store :=
  let date :=
    match ev_date body with
    | Some d => if Js.truthy d then Some (newDate d) else None
    | None => None
    end in
  match Js.truthy_opt (ev_name body), date with
  | true, Some (Some date) =>
      let eventData :=
        InsertEvent.mk (default "" (ev_name body)) (ev_description body)
                       (ev_location body) date (ev_startTime body)
                       (ev_endTime body) (User.id user) true in
      let '(event, st1) := Storage.createEvent now eventData st in
      let '(_, st2) :=
        createAuditLog now (Event.id event) (User.id user) "create_event"
                       ("تم إنشاء المناسبة: " ++ Event.name event) None st1 in
      (reply 200 (JEvent event), st2)
  | true, Some None => (reply 500 (JError msg_event_failed), st)
  | _, _ => (reply 400 (JError msg_event_required), st)
  end.

Definition postEvents (now : Z) (session : option string) (body : EventBody)
    (st : Store) : Response * Store :=
  match requireRole [event_manager] session st with
  | inl r => (r, st)
  | inr user => createEvent now user body st
  end.

(** *** POST /api/events/:id/upload-guests *)

(** One element of [guestsToCreate]; [i] numbers the call of [randomUUID]. *)
Definition guestOfRow (eventId : string) (i : nat) (row : gmap string Js.cell)
    : InsertGuest.t :=
  InsertGuest.mk
    eventId
    (Js.cell_toString numberToString
       (Js.first_truthy row ["الاسم"; "Name"; "name"] (Js.CStr "")))
    (Js.cell_toString numberToString
       (Js.first_truthy row ["الجوال"; "Phone"; "phone"] (Js.CStr "")))
    (toLowerCase
       (Js.cell_toString numberToString
          (Js.first_truthy row ["الفئة"; "Category"] (Js.CStr "regular"))))
    (match parseInt (Js.cell_toString numberToString
                       (Js.first_truthy row ["عدد المرافقين"; "Companions"]
                                        (Js.CStr "0"))) with
     | Some n => n
     | None => 0
     end)
    (Js.cell_toString numberToString
       (Js.first_truthy row ["ملاحظات"; "Notes"] (Js.CStr "")))
    (randomUUID i).

(** [file] is the first sheet of the uploaded workbook, when a file came. *)
Definition uploadGuests (now : Z) (user : User.t) (eventId : string)
    (file : option (list (gmap string Js.cell))) (st : Store)
    : Response * Store :=
  match getEvent st eventId with
  | None => (reply 403 (JError msg_forbidden), st)
  | Some event =>
      if negb (bool_decide (Event.eventManagerId event = User.id user))
      then (reply 403 (JError msg_forbidden), st)
      else
        match file with
        | None => (reply 400 (JError msg_no_file), st)
        | Some data =>
            let guestsToCreate :=
              imap (λ i row, guestOfRow eventId (serial st + i)%nat row) data in
            let '(createdGuests, st1) := createGuests guestsToCreate st in
            let '(_, st2) :=
              createAuditLog now eventId (User.id user) "upload_guests"
                ("تم رفع " ++ pretty (List.length createdGuests) ++ " ضيف")
                None st1 in
            (reply 200 (JUpload (List.length createdGuests) createdGuests), st2)
        end
  end.

Definition postUploadGuests (now : Z) (session : option string) (eventId : string)
    (file : option (list (gmap string Js.cell))) (st : Store) : Response * Store :=
  match requireRole [event_manager] session st with
  | inl r => (r, st)
  | inr user => uploadGuests now user eventId file st
  end.

(** *** POST /api/guests/:id/check-in *)

(** [assignedEvents.some(e => e.id === eventId)] *)
Definition organizerHasAccess (st : Store) (organizerId eventId : string) : bool :=
  bool_decide (Exists (λ e, Event.id e = eventId) (getOrganizerEvents st organizerId)).

(** The name shown for the account that checked the guest in. *)
Definition checkedInByName (st : Store) (guest : Guest.t) : string :=
  let checkedInByUser :=
    match Guest.checkedInBy guest with
    | Some by_ => if Js.truthy by_ then getUser st by_ else None
    | None => None
    end in
  Js.or_else (User.name <$> checkedInByUser) msg_unknown.

Definition checkIn (now : Z) (user : User.t) (guestId : string) (st : Store)
    : Response * Store :=
  match getGuest st guestId with
  | None => (reply 404 (JInvalid msg_guest_not_found), st)
  | Some guest =>
      if bool_decide (User.role user = organizer)
         && negb (organizerHasAccess st (User.id user) (Guest.eventId guest))
      then (reply 403 (JError msg_forbidden), st)
      else if Guest.isCheckedIn guest
      then (reply 200 (JDuplicate guest msg_duplicate (Guest.checkedInAt guest)
                                  (checkedInByName st guest)), st)
      else
        let '(updatedGuest, st1) := checkInGuest now guestId (User.id user) st in
        let '(_, st2) :=
          createAuditLog now (Guest.eventId guest) (User.id user) "check_in"
                         ("تم تسجيل حضور: " ++ Guest.name guest)
                         (Some (Guest.id guest)) st1 in
        (reply 200 (JSuccess updatedGuest msg_checked_in), st2)
  end.

Definition postCheckIn (now : Z) (session : option string) (guestId : string)
    (st : Store) : Response * Store :=
  match requireRole [organizer; event_manager] session st with
  | inl r => (r, st)
  | inr user => checkIn now user guestId st
  end.

(** *** POST and DELETE /api/events/:id/organizers *)

Definition assignOrganizer (user : User.t) (eventId organizerId : string)
    (st : Store) : Response * Store :=
  match getEvent st eventId with
  | None => (reply 403 (JError msg_forbidden), st)
  | Some event =>
      if negb (bool_decide (Event.eventManagerId event = User.id user))
      then (reply 403 (JError msg_forbidden), st)
      else
        let '(assignment, st') := Storage.assignOrganizer eventId organizerId st in
        (reply 200 (JAssignment assignment), st')
  end.

Definition removeOrganizer (user : User.t) (eventId organizerId : string)
    (st : Store) : Response * Store :=
  match getEvent st eventId with
  | None => (reply 403 (JError msg_forbidden), st)
  | Some event =>
      if negb (bool_decide (Event.eventManagerId event = User.id user))
      then (reply 403 (JError msg_forbidden), st)
      else (reply 200 JOk, Storage.removeOrganizer eventId organizerId st)
  end.

Definition postOrganizers (session : option string) (eventId organizerId : string)
    (st : Store) : Response * Store :=
  match requireRole [event_manager] session st with
  | inl r => (r, st)
  | inr user => assignOrganizer user eventId organizerId st
  end.

Definition deleteOrganizers (session : option string) (eventId organizerId : string)
    (st : Store) : Response * Store :=
  match requireRole [event_manager] session st with
  | inl r => (r, st)
  | inr user => removeOrganizer user eventId organizerId st
  end.

End WithEnv.
End Routes.

(** ** A concrete environment and a small database *)

Module Sample.

(** Modelled from the spec: [insertUserSchema] of [@shared/schema], which
    is not among the sources. The data model gives an account a role among
    super_admin, admin, event_manager and organizer; the other fields of
    the body are strings already. *)
Definition userSchema (body : UserBody) : bool :=
  bool_decide (body_role body ∈ [super_admin; admin; event_manager; organizer]).

(** Digits only, as [parseInt] reads a plain decimal numeral. *)
Fixpoint digits (s : string) (acc : Z) : option Z :=
  match s with
  | EmptyString => Some acc
  | String c r =>
      let n := nat_of_ascii c in
      if (Nat.leb 48 n && Nat.leb n 57)%bool
      then digits r (10 * acc + Z.of_nat (n - 48))
      else None
  end.

(** A date text [YYYY-MM-DD] with a month from 01 to 12 and a day from 01
    to 28 is read as midnight UTC of that day, in milliseconds since 1970;
    this instance takes any other text as unreadable. *)
Definition daysFromCivil (y m d : Z) : Z :=
  let y' := if m <=? 2 then y - 1 else y in
  let era := y' / 400 in
  let yoe := y' - era * 400 in
  let doy := (153 * (if 2 <? m then m - 3 else m + 9) + 2) / 5 + d - 1 in
  let doe := yoe * 365 + yoe / 4 - yoe / 100 + doy in
  era * 146097 + doe - 719468.

Definition isoDate (s : string) : option Z :=
  if bool_decide (String.length s = 10%nat)
     && bool_decide (String.get 4 s = Some "-"%char)
     && bool_decide (String.get 7 s = Some "-"%char)
  then
    match digits (String.substring 0 4 s) 0, digits (String.substring 5 2 s) 0,
          digits (String.substring 8 2 s) 0 with
    | Some y, Some m, Some d =>
        if (1 <=? m) && (m <=? 12) && (1 <=? d) && (d <=? 28)
        then Some (daysFromCivil y m d * 86400000) else None
    | _, _, _ => None
    end
  else None.

(** An update body [{"isActive": b}] sets the flag; this instance takes
    any other body as one that the update refuses. *)
Definition setActive (body : Js.json) : option (Event.t -> Event.t) :=
  match body with
  | Js.Obj [("isActive", Js.Bool b)] =>
      Some (λ e, Event.mk (Event.id e) (Event.name e) (Event.description e)
                          (Event.location e) (Event.date e) (Event.startTime e)
                          (Event.endTime e) (Event.eventManagerId e) b
                          (Event.createdAt e))
  | _ => None
  end.

(** The numeral of the integer part of [mantissa * 2 ^ exponent]: the text
    of the number when it is an integer up to 2^53 in size. *)
Definition integerText (x : Js.number) : string :=
  if Js.exponent x =? 0 then pretty (Js.mantissa x)
  else if 0 <? Js.exponent x then pretty (Js.mantissa x * 2 ^ Js.exponent x)
  else pretty (Z.quot (Js.mantissa x) (2 ^ (- Js.exponent x))).

#[export] Instance env : Env := {|
  hashPassword := λ p, "sha256:" ++ p;
  insertUserSchema := userSchema;
  gen_random_uuid := λ n, "row-" ++ pretty n;
  randomUUID := λ n, "qr-" ++ pretty n;
  parseInt := λ s, if bool_decide (s = "") then None else digits s 0;
  newDate := isoDate;
  toLowerCase := Js.asciiLower;
  toLowerCase_ascii := λ s _, eq_refl;
  numberToString := integerText;
  numberToString_safe := λ n _, eq_refl;
  setEvent := setActive;
  defaultEventQuota := 5
|}.

Definition account (id name role : string) (by_ : option string) : User.t :=
  User.mk id id ("sha256:" ++ id ++ "-pw") name role true by_ 5 0.

Definition root := account "root" "Root" super_admin None.
Definition adm := account "adm" "Admin" admin (Some "root").
(** [m1] has a quota of two events and owns two already. *)
Definition m1 := User.mk "m1" "m1" "sha256:m1-pw" "Mona" event_manager true (Some "adm") 2 0.
Definition m2 := account "m2" "Majid" event_manager (Some "adm").
Definition o1 := account "o1" "Omar" organizer (Some "m1").
Definition o2 := account "o2" "Ola" organizer (Some "m1").
(** an organizer whose display name is empty *)
Definition o3 := account "o3" "" organizer (Some "m1").
(** a deactivated manager *)
Definition m3 := User.mk "m3" "m3" "sha256:m3-pw" "Maha" event_manager false (Some "adm") 5 0.

(** [e1] is active, [e2] is not; both belong to [m1]. *)
Definition e1 := Event.mk "e1" "Gala" None None 1000 None None "m1" true 0.
Definition e2 := Event.mk "e2" "Launch" None None 2000 None None "m1" false 0.

Definition invited (id eventId name : string) : Guest.t :=
  Guest.mk id eventId name "0500" "regular" 0 "" ("qr-" ++ id) false None None.
Definition arrived (id eventId name : string) (at_ : Z) (by_ : string) : Guest.t :=
  Guest.mk id eventId name "0500" "regular" 0 "" ("qr-" ++ id) true (Some at_) (Some by_).

Definition g1 := invited "g1" "e1" "Huda".
Definition g2 := arrived "g2" "e1" "Hani" 100 "o1".
Definition g3 := arrived "g3" "e1" "Hala" 110 "o3".
Definition g4 := arrived "g4" "e1" "Hadi" 120 "gone".
Definition g5 := invited "g5" "e2" "Hind".

(** A sheet of three rows: no category, a mixed-case one, an unknown one. *)
Definition rows : list (gmap string Js.cell) :=
  [ {[ "Name" := Js.CStr "Ali"; "Phone" := Js.CStr "0501" ]};
    {[ "Name" := Js.CStr "Badr"; "Category" := Js.CStr "VIP" ]};
    {[ "Phone" := Js.CNum (Js.ofZ 502); "Category" := Js.CStr "Gold" ]} ].

Definition db : Store :=
  mkStore [root; adm; m1; m2; o1; o2; o3; m3] [e1; e2] [g1; g2; g3; g4; g5]
          [EventOrganizer.mk "a1" "e1" "o1"; EventOrganizer.mk "a2" "e1" "o3"]
          [] 20.

End Sample.

(** ** The check-in handler, one [await] at a time

    Node runs one handler until its next [await]; another request can run
    in between. Each storage call of the check-in handler is one atomic
    step here, and a schedule says whose step comes next. *)

Module Interleaving.
Section WithEnv.
Context {E : Env}.
Import Storage.

(** Where a request stands, with the locals it holds. *)
Inductive Pc :=
| AwaitGetGuest
| AwaitOrganizerEvents (guest : Guest.t)
| AwaitCheckedInBy (guest : Guest.t)
| AwaitCheckInGuest (guest : Guest.t)
| AwaitAuditLog (guest : Guest.t) (updatedGuest : option Guest.t)
| Responded (r : Response).

(** After the access check: the test of [guest.isCheckedIn], on the copy
    of the guest that was read at the start. *)
Definition afterAccess (guest : Guest.t) : Pc :=
  if Guest.isCheckedIn guest then AwaitCheckedInBy guest else AwaitCheckInGuest guest.

Definition step (now : Z) (user : User.t) (guestId : string) (pc : Pc) (st : Store)
    : Pc * Store :=
  match pc with
  | AwaitGetGuest =>
      match getGuest st guestId with
      | None => (Responded (reply 404 (JInvalid msg_guest_not_found)), st)
      | Some guest =>
          if bool_decide (User.role user = organizer)
          then (AwaitOrganizerEvents guest, st)
          else (afterAccess guest, st)
      end
  | AwaitOrganizerEvents guest =>
      if negb (Routes.organizerHasAccess st (User.id user) (Guest.eventId guest))
      then (Responded (reply 403 (JError msg_forbidden)), st)
      else (afterAccess guest, st)
  | AwaitCheckedInBy guest =>
      (Responded (reply 200 (JDuplicate guest msg_duplicate (Guest.checkedInAt guest)
                                        (Routes.checkedInByName st guest))), st)
  | AwaitCheckInGuest guest =>
      let '(updatedGuest, st1) := checkInGuest now guestId (User.id user) st in
      (AwaitAuditLog guest updatedGuest, st1)
  | AwaitAuditLog guest updatedGuest =>
      let '(_, st2) :=
        createAuditLog now (Guest.eventId guest) (User.id user) "check_in"
                       ("تم تسجيل حضور: " ++ Guest.name guest)
                       (Some (Guest.id guest)) st in
      (Responded (reply 200 (JSuccess updatedGuest msg_checked_in)), st2)
  | Responded r => (Responded r, st)
  end.

(** One request running alone: at most four awaits. *)
Definition alone (now : Z) (user : User.t) (guestId : string) (st : Store)
    : Pc * Store :=
  let '(pc1, st1) := step now user guestId AwaitGetGuest st in
  let '(pc2, st2) := step now user guestId pc1 st1 in
  let '(pc3, st3) := step now user guestId pc2 st2 in
  step now user guestId pc3 st3.

(** Two requests for the same guest. *)
Inductive Who := First | Second.

Record Config := mkConfig {
  first : Pc;
  second : Pc;
  store : Store
}.

Definition turn (userA userB : User.t) (guestId : string)
    (t : Who * Z) (c : Config) : Config :=
  match t with
  | (First, now) =>
      let '(pc, st) := step now userA guestId (first c) (store c) in
      mkConfig pc (second c) st
  | (Second, now) =>
      let '(pc, st) := step now userB guestId (second c) (store c) in
      mkConfig (first c) pc st
  end.

Definition run (userA userB : User.t) (guestId : string)
    (schedule : list (Who * Z)) (st : Store) : Config :=
  foldl (λ c t, turn userA userB guestId t c)
        (mkConfig AwaitGetGuest AwaitGetGuest st) schedule.

(** The awaits of a request before its write: [getGuest], and for an
    organizer [getOrganizerEvents] as well. *)
Definition reads (user : User.t) : nat :=
  if bool_decide (User.role user = organizer) then 2%nat else 1%nat.

(** Both requests read the guest before either writes. *)
Definition racing (userA userB : User.t) (tA tB : Z) : list (Who * Z) :=
  (replicate (reads userA) (First, tA) ++ replicate (reads userB) (Second, tB)
   ++ [(First, tA); (Second, tB); (First, tA); (Second, tB)])%list.

(** The first request finishes before the second starts. *)
Definition oneAfterTheOther (userA userB : User.t) (tA tB : Z) : list (Who * Z) :=
  (replicate (reads userA + 2) (First, tA) ++ replicate (reads userB + 1) (Second, tB))%list.

Definition checkInLogs (st : Store) : list AuditLog.t :=
  filter (λ l, AuditLog.action l = "check_in") (auditLogs st).

End WithEnv.
End Interleaving.

(** ** The specification's tables, to compare the code with *)

Module Spec.
Section WithEnv.
Context {E : Env}.

(** Section 4.2: who may create which role. *)
Definition mayCreate (actorRole targetRole : string) : bool :=
  bool_decide ((actorRole, targetRole) ∈
               [(super_admin, admin); (super_admin, event_manager);
                (admin, event_manager); (event_manager, organizer)]).

Definition roles : list string := [super_admin; admin; event_manager; organizer].

(** Section 4.3: [eventsUsed], the number of events a manager owns. *)
Definition eventsUsed (st : Store) (managerId : string) : nat :=
  List.length (filter (λ e, Event.eventManagerId e = managerId) (events st)).

(** Section 3: the guest categories. *)
Definition categories : list string := ["regular"; "vip"; "media"; "sponsor"].

(** The operations on the Assignment Graph, as requests. *)
Inductive Op :=
| AssignOrganizer (session : option string) (eventId organizerId : string)
| RemoveOrganizer (session : option string) (eventId organizerId : string).

Definition apply (op : Op) (st : Store) : Response * Store :=
  match op with
  | AssignOrganizer s e o => Routes.postOrganizers s e o st
  | RemoveOrganizer s e o => Routes.deleteOrganizers s e o st
  end.

Definition runOps (ops : list Op) (st : Store) : Store :=
  foldl (λ st op, (apply op st).2) st ops.

(** How many stored assignments carry the pair. *)
Definition countPair (eventId organizerId : string) (st : Store) : nat :=
  List.length (filter (λ a, EventOrganizer.eventId a = eventId
                            ∧ EventOrganizer.organizerId a = organizerId)
                      (eventOrganizers st)).

(** The caller is a manager and the event is theirs. *)
Definition owns (st : Store) (session : option string) (eventId : string) : bool :=
  match Routes.requireRole [event_manager] session st with
  | inr user =>
      match Storage.getEvent st eventId with
      | Some event => bool_decide (Event.eventManagerId event = User.id user)
      | None => false
      end
  | inl _ => false
  end.

(** The number of records of the pair that the operations leave, from
    the number [n] there was: an accepted assign adds one, an accepted
    remove leaves none. *)
Definition tallyOp (st : Store) (eventId organizerId : string) (n : nat) (op : Op) : nat :=
  match op with
  | AssignOrganizer s e o =>
      if owns st s e && bool_decide (e = eventId ∧ o = organizerId) then S n else n
  | RemoveOrganizer s e o =>
      if owns st s e && bool_decide (e = eventId ∧ o = organizerId) then 0%nat else n
  end.

Definition tally (st : Store) (eventId organizerId : string) (ops : list Op) (n : nat) : nat :=
  foldl (tallyOp st eventId organizerId) n ops.

End WithEnv.
End Spec.

(** ** The rest of [DatabaseStorage] *)

Module Queries.
Section WithEnv.
Context {E : Env}.
Import Storage.

(** [orderBy(desc(column))]: the rows by decreasing key, as a merge sort
    gives them; SQL leaves the order of rows with equal keys open. *)
Definition descBy {A : Type} (key : A -> Z) : relation A :=
  λ a b, key b ≤ key a.

#[export] Instance descBy_dec {A : Type} (key : A -> Z) (a b : A) :
  Decision (descBy key a b) := decide (key b ≤ key a).

Definition orderByDesc {A : Type} (key : A -> Z) (l : list A) : list A :=
  merge_sort (descBy key) l.

Definition getUsersByRole (st : Store) (role : string) : list User.t :=
  filter (λ u, User.role u = role) (users st).

(** [eq(users.createdById, createdById)]: a null creator matches nothing. *)
Definition getUsersByCreator (st : Store) (createdById : string) : list User.t :=
  filter (λ u, User.createdById u = Some createdById) (users st).

(** [deleteUser], of the later revision of the storage class. *)
Definition deleteUser (id : string) (st : Store) : Store :=
  mkStore (filter (λ u, User.id u ≠ id) (users st)) (events st) (guests st)
          (eventOrganizers st) (auditLogs st) (serial st).

Definition getEvents (st : Store) : list Event.t :=
  orderByDesc Event.date (events st).

Definition getEventsByManager (st : Store) (managerId : string) : list Event.t :=
  orderByDesc Event.date (filter (λ e, Event.eventManagerId e = managerId) (events st)).

(** [db.update(events).set(data).where(eq(events.id, id)).returning()]:
    [set] is what the data do to a row; every row with the id is updated,
    and the first of the updated rows is returned. *)
Definition updateEvent (id : string) (set : Event.t -> Event.t) (st : Store)
    : option Event.t * Store :=
  (head (set <$> filter (λ e, Event.id e = id) (events st)),
   mkStore (users st)
           ((λ e, if bool_decide (Event.id e = id) then set e else e) <$> events st)
           (guests st) (eventOrganizers st) (auditLogs st) (serial st)).

Definition deleteEvent (id : string) (st : Store) : Store :=
  mkStore (users st) (filter (λ e, Event.id e ≠ id) (events st)) (guests st)
          (eventOrganizers st) (auditLogs st) (serial st).

Definition getGuestByQrCode (st : Store) (qrCode : string) : option Guest.t :=
  head (filter (λ g, Guest.qrCode g = qrCode) (guests st)).

Definition getGuestsByEvent (st : Store) (eventId : string) : list Guest.t :=
  filter (λ g, Guest.eventId g = eventId) (guests st).

Definition createGuest (insertGuest : InsertGuest.t) (st : Store) : Guest.t * Store :=
  let guest := InsertGuest.inserted (gen_random_uuid (serial st)) insertGuest in
  (guest,
   mkStore (users st) (events st) (guests st ++ [guest]) (eventOrganizers st)
           (auditLogs st) (S (serial st))).

Definition deleteGuest (id : string) (st : Store) : Store :=
  mkStore (users st) (events st) (filter (λ g, Guest.id g ≠ id) (guests st))
          (eventOrganizers st) (auditLogs st) (serial st).

Definition getEventOrganizers (st : Store) (eventId : string) : list User.t :=
  let assignments :=
    filter (λ a, EventOrganizer.eventId a = eventId) (eventOrganizers st) in
  match assignments with
  | [] => []
  | _ =>
      let organizerIds := EventOrganizer.organizerId <$> assignments in
      let organizers := getUser st <$> organizerIds in
      omap (λ o, o) organizers
  end.

Definition getAuditLogsByEvent (st : Store) (eventId : string) : list AuditLog.t :=
  orderByDesc AuditLog.timestamp
              (filter (λ l, AuditLog.eventId l = eventId) (auditLogs st)).

(** [g.isCheckedIn && g.checkedInAt && new Date(g.checkedInAt) >= today] *)
Definition checkedInSince (today : Z) (g : Guest.t) : bool :=
  Guest.isCheckedIn g
  && match Guest.checkedInAt g with
     | Some t => today <=? t
     | None => false
     end.

(** [getStats]; [today] is the local midnight that the method computes
    from the clock. *)
Definition getStats (today : Z) (st : Store) (role : string) (userId : option string)
    : gmap string nat :=
  let allUsers := users st in
  let allEvents := events st in
  let allGuests := guests st in
  if bool_decide (role = super_admin) then
    {[ "totalAdmins" := List.length (filter (λ u, User.role u = admin) allUsers);
       "totalEventManagers" :=
         List.length (filter (λ u, User.role u = event_manager) allUsers);
       "totalEvents" := List.length allEvents;
       "activeEvents" := List.length (filter (λ e, Event.isActive e = true) allEvents) ]}
  else if bool_decide (role = admin) then
    {[ "totalEventManagers" :=
         List.length (filter (λ u, User.role u = event_manager) allUsers);
       "totalEvents" := List.length allEvents;
       "activeEvents" := List.length (filter (λ e, Event.isActive e = true) allEvents);
       "totalGuests" := List.length allGuests ]}
  else if bool_decide (role = event_manager) && Js.truthy_opt userId then
    let userEvents :=
      filter (λ e, Some (Event.eventManagerId e) = userId) allEvents in
    let userEventIds := Event.id <$> userEvents in
    let userGuests := filter (λ g, Guest.eventId g ∈ userEventIds) allGuests in
    {[ "totalEvents" := List.length userEvents;
       "activeEvents" := List.length (filter (λ e, Event.isActive e = true) userEvents);
       "totalGuests" := List.length userGuests;
       "checkedInToday" :=
         List.length
           (filter (λ g, checkedInSince today g = true) userGuests) ]}
  else ∅.

End WithEnv.
End Queries.

(** ** The other routes *)

Definition msg_user_not_found : string := "المستخدم غير موجود".
Definition msg_event_not_found : string := "المناسبة غير موجودة".
Definition msg_in_progress : string := "ميزة قيد التطوير".
Definition msg_update_failed : string := "خطأ في تحديث المناسبة".

(** What a route sends: one of the answers above, or with status 200 a
    list, a table of counts, or the row that an update returns. *)
Inductive View :=
| VResponse (r : Response)
| VUsers (l : list PublicUser.t)
| VEvents (l : list Event.t)
| VGuests (l : list Guest.t)
| VLogs (l : list AuditLog.t)
| VStats (m : gmap string nat)
| VUpdated (event : option Event.t).

Module Api.
Section WithEnv.
Context {E : Env}.
Import Storage Queries.

Definition refuse (status : Z) (error : string) : View :=
  VResponse (reply status (JError error)).

(** POST /api/auth/logout: the session is destroyed. *)
Definition logout (session : option string) : View * option string :=
  (VResponse (reply 200 JOk), None).

(** GET /api/auth/me *)
Definition getMe (session : option string) (st : Store) : View :=
  if negb (Js.truthy_opt session) then refuse 401 msg_unauthorized
  else
    match getUser st (default "" session) with
    | None => refuse 401 msg_user_not_found
    | Some user => VResponse (reply 200 (JUser (PublicUser.strip user)))
    end.

(** GET /api/users/admins *)
Definition getAdmins (session : option string) (st : Store) : View :=
  match Routes.requireRole [super_admin] session st with
  | inl r => VResponse r
  | inr _ => VUsers (PublicUser.strip <$> getUsersByRole st admin)
  end.

(** GET /api/users/event-managers *)
Definition getEventManagers (session : option string) (st : Store) : View :=
  match Routes.requireRole [super_admin; admin] session st with
  | inl r => VResponse r
  | inr _ => VUsers (PublicUser.strip <$> getUsersByRole st event_manager)
  end.

(** GET /api/users/organizers *)
Definition getOrganizers (session : option string) (st : Store) : View :=
  match Routes.requireRole [event_manager; super_admin; admin] session st with
  | inl r => VResponse r
  | inr user =>
      let organizers :=
        if bool_decide (User.role user = event_manager)
        then getUsersByCreator st (User.id user)
        else getUsersByRole st organizer in
      VUsers (PublicUser.strip <$> organizers)
  end.

(** GET /api/events *)
Definition getEventList (session : option string) (st : Store) : View :=
  match Routes.requireAuth session with
  | Some r => VResponse r
  | None =>
      match getUser st (default "" session) with
      | None => refuse 401 msg_unauthorized
      | Some user =>
          VEvents
            (if bool_decide (User.role user = event_manager)
             then getEventsByManager st (User.id user)
             else if bool_decide (User.role user = organizer)
             then getOrganizerEvents st (User.id user)
             else getEvents st)
      end
  end.

(** GET /api/events/:id *)
Definition getEventById (session : option string) (id : string) (st : Store) : View :=
  match Routes.requireAuth session with
  | Some r => VResponse r
  | None =>
      match getEvent st id with
      | None => refuse 404 msg_event_not_found
      | Some event =>
          match getUser st (default "" session) with
          | None => refuse 401 msg_unauthorized
          | Some user =>
              if bool_decide (User.role user = event_manager)
                 && negb (bool_decide (Event.eventManagerId event = User.id user))
              then refuse 403 msg_forbidden
              else VResponse (reply 200 (JEvent event))
          end
      end
  end.

(** PATCH /api/events/:id: the body goes to the update as it is. When the
    update throws, the handler's [catch] answers 500. *)
Definition patchEventById (session : option string) (id : string) (body : Js.json)
    (st : Store) : View * Store :=
  match Routes.requireRole [event_manager] session st with
  | inl r => (VResponse r, st)
  | inr user =>
      match getEvent st id with
      | None => (refuse 404 msg_event_not_found, st)
      | Some event =>
          if negb (bool_decide (Event.eventManagerId event = User.id user))
          then (refuse 403 msg_forbidden, st)
          else
            match setEvent body with
            | None => (refuse 500 msg_update_failed, st)
            | Some set =>
                let '(updated, st') := updateEvent id set st in
                (VUpdated updated, st')
            end
      end
  end.

(** DELETE /api/events/:id *)
Definition deleteEventById (session : option string) (id : string) (st : Store)
    : View * Store :=
  match Routes.requireRole [event_manager] session st with
  | inl r => (VResponse r, st)
  | inr user =>
      match getEvent st id with
      | None => (refuse 404 msg_event_not_found, st)
      | Some event =>
          if negb (bool_decide (Event.eventManagerId event = User.id user))
          then (refuse 403 msg_forbidden, st)
          else (VResponse (reply 200 JOk), deleteEvent id st)
      end
  end.

(** GET /api/events/:id/guests *)
Definition getGuests (session : option string) (id : string) (st : Store) : View :=
  match Routes.requireAuth session with
  | Some r => VResponse r
  | None =>
      match getUser st (default "" session) with
      | None => refuse 401 msg_unauthorized
      | Some user =>
          match getEvent st id with
          | None => refuse 404 msg_event_not_found
          | Some event =>
              if bool_decide (User.role user = event_manager)
                 && negb (bool_decide (Event.eventManagerId event = User.id user))
              then refuse 403 msg_forbidden
              else VGuests (getGuestsByEvent st id)
          end
      end
  end.

(** GET /api/organizer/events *)
Definition getMyEvents (session : option string) (st : Store) : View :=
  match Routes.requireRole [organizer; event_manager] session st with
  | inl r => VResponse r
  | inr user =>
      VEvents (if bool_decide (User.role user = organizer)
               then getOrganizerEvents st (User.id user)
               else getEventsByManager st (User.id user))
  end.

(** GET /api/events/:id/organizers *)
Definition getOrganizersOfEvent (session : option string) (id : string) (st : Store)
    : View :=
  match Routes.requireAuth session with
  | Some r => VResponse r
  | None =>
      match getUser st (default "" session) with
      | None => refuse 401 msg_unauthorized
      | Some user =>
          match getEvent st id with
          | None => refuse 404 msg_event_not_found
          | Some event =>
              if bool_decide (User.role user = event_manager)
                 && negb (bool_decide (Event.eventManagerId event = User.id user))
              then refuse 403 msg_forbidden
              else if bool_decide (User.role user = organizer)
                      && negb (Routes.organizerHasAccess st (User.id user) (Event.id event))
              then refuse 403 msg_forbidden
              else VUsers (PublicUser.strip <$> getEventOrganizers st id)
          end
      end
  end.

(** GET /api/events/:id/audit-logs *)
Definition getAuditLogs (session : option string) (id : string) (st : Store) : View :=
  match Routes.requireRole [event_manager; super_admin; admin] session st with
  | inl r => VResponse r
  | inr user =>
      match getEvent st id with
      | None => refuse 404 msg_event_not_found
      | Some event =>
          if bool_decide (User.role user = event_manager)
             && negb (bool_decide (Event.eventManagerId event = User.id user))
          then refuse 403 msg_forbidden
          else VLogs (getAuditLogsByEvent st id)
      end
  end.

(** GET /api/stats/super-admin, /admin and /event-manager *)
Definition getStatsSuperAdmin (today : Z) (session : option string) (st : Store) : View :=
  match Routes.requireRole [super_admin] session st with
  | inl r => VResponse r
  | inr _ => VStats (getStats today st super_admin None)
  end.

Definition getStatsAdmin (today : Z) (session : option string) (st : Store) : View :=
  match Routes.requireRole [admin; super_admin] session st with
  | inl r => VResponse r
  | inr _ => VStats (getStats today st admin None)
  end.

Definition getStatsEventManager (today : Z) (session : option string) (st : Store)
    : View :=
  match Routes.requireRole [event_manager] session st with
  | inl r => VResponse r
  | inr user => VStats (getStats today st event_manager (Some (User.id user)))
  end.

(** GET /api/events/:id/download-qr *)
Definition getDownloadQr (session : option string) (st : Store) : View :=
  match Routes.requireRole [event_manager] session st with
  | inl r => VResponse r
  | inr _ => refuse 501 msg_in_progress
  end.

(** *** The server: one request against the session and the store

    Every route of [registerRoutes]. *)
Inductive Request :=
| PostLogin (body : LoginBody)
| PostLogout
| GetMe
| GetAdmins
| GetEventManagers
| GetOrganizers
| PostUsers (now : Z) (body : UserBody)
| GetEvents
| GetEvent (id : string)
| PostEvents (now : Z) (body : EventBody)
| PatchEvent (id : string) (body : Js.json)
| DeleteEvent (id : string)
| GetGuests (id : string)
| PostUploadGuests (now : Z) (id : string) (file : option (list (gmap string Js.cell)))
| PostCheckIn (now : Z) (guestId : string)
| GetOrganizerEvents
| GetEventOrganizers (id : string)
| PostOrganizers (id organizerId : string)
| DeleteOrganizers (id organizerId : string)
| GetAuditLogs (id : string)
| GetStatsSuperAdmin (today : Z)
| GetStatsAdmin (today : Z)
| GetStatsEventManager (today : Z)
| GetDownloadQr (id : string).

Record Served := mkServed {
  view : View;
  session_after : option string;
  store_after : Store
}.

Definition wrote (session : option string) (r : Response * Store) : Served :=
  mkServed (VResponse r.1) session r.2.

Definition read (session : option string) (st : Store) (v : View) : Served :=
  mkServed v session st.

Definition serve (req : Request) (session : option string) (st : Store) : Served :=
  match req with
  | PostLogin body =>
      let '(r, session') := Routes.login body session st in
      mkServed (VResponse r) session' st
  | PostLogout => mkServed (logout session).1 (logout session).2 st
  | GetMe => read session st (getMe session st)
  | GetAdmins => read session st (getAdmins session st)
  | GetEventManagers => read session st (getEventManagers session st)
  | GetOrganizers => read session st (getOrganizers session st)
  | PostUsers now body => wrote session (Routes.postUsers now session body st)
  | GetEvents => read session st (getEventList session st)
  | GetEvent id => read session st (getEventById session id st)
  | PostEvents now body => wrote session (Routes.postEvents now session body st)
  | PatchEvent id body =>
      mkServed (patchEventById session id body st).1 session
               (patchEventById session id body st).2
  | DeleteEvent id =>
      mkServed (deleteEventById session id st).1 session (deleteEventById session id st).2
  | GetGuests id => read session st (getGuests session id st)
  | PostUploadGuests now id file =>
      wrote session (Routes.postUploadGuests now session id file st)
  | PostCheckIn now guestId => wrote session (Routes.postCheckIn now session guestId st)
  | GetOrganizerEvents => read session st (getMyEvents session st)
  | GetEventOrganizers id => read session st (getOrganizersOfEvent session id st)
  | PostOrganizers id organizerId =>
      wrote session (Routes.postOrganizers session id organizerId st)
  | DeleteOrganizers id organizerId =>
      wrote session (Routes.deleteOrganizers session id organizerId st)
  | GetAuditLogs id => read session st (getAuditLogs session id st)
  | GetStatsSuperAdmin today => read session st (getStatsSuperAdmin today session st)
  | GetStatsAdmin today => read session st (getStatsAdmin today session st)
  | GetStatsEventManager today => read session st (getStatsEventManager today session st)
  | GetDownloadQr _ => read session st (getDownloadQr session st)
  end.

(** A client: its requests one after the other, the session carried along. *)
Definition serveAll (reqs : list Request) (session : option string) (st : Store)
    : option string * Store :=
  foldl (λ '(s, st) req, (session_after (serve req s st), store_after (serve req s st)))
        (session, st) reqs.

(** Requests of any number of clients, each with the session it holds. *)
Definition serveMany (reqs : list (option string * Request)) (st : Store) : Store :=
  foldl (λ st '(s, req), store_after (serve req s st)) st reqs.

(** *** What a request can do to the store *)
Inductive Effect :=
| Unchanged
| UserCreated (now : Z) (body : UserBody) (creator : User.t)
| EventCreated (now : Z) (event : InsertEvent.t) (manager : User.t)
| EventUpdated (id : string) (set : Event.t -> Event.t) (manager : User.t)
| EventDeleted (id : string) (manager : User.t)
| GuestsUploaded (now : Z) (eventId : string) (rows : list InsertGuest.t) (manager : User.t)
| GuestCheckedIn (now : Z) (guest : Guest.t) (caller : User.t)
| OrganizerAssigned (eventId organizerId : string) (manager : User.t)
| OrganizerRemoved (eventId organizerId : string) (manager : User.t).

Definition effect (eff : Effect) (st : Store) : Store :=
  match eff with
  | Unchanged => st
  | UserCreated now body creator =>
      (createUser now body (hashPassword (body_password body)) (User.id creator) st).2
  | EventCreated now event manager =>
      let '(created, st1) := createEvent now event st in
      (createAuditLog now (Event.id created) (User.id manager) "create_event"
                      ("تم إنشاء المناسبة: " ++ Event.name created) None st1).2
  | EventUpdated id set _ => (updateEvent id set st).2
  | EventDeleted id _ => deleteEvent id st
  | GuestsUploaded now eventId rows manager =>
      let '(created, st1) := createGuests rows st in
      (createAuditLog now eventId (User.id manager) "upload_guests"
                      ("تم رفع " ++ pretty (List.length created) ++ " ضيف") None st1).2
  | GuestCheckedIn now guest caller =>
      let '(_, st1) := checkInGuest now (Guest.id guest) (User.id caller) st in
      (createAuditLog now (Guest.eventId guest) (User.id caller) "check_in"
                      ("تم تسجيل حضور: " ++ Guest.name guest)
                      (Some (Guest.id guest)) st1).2
  | OrganizerAssigned eventId organizerId _ =>
      (assignOrganizer eventId organizerId st).2
  | OrganizerRemoved eventId organizerId _ =>
      removeOrganizer eventId organizerId st
  end.

(** The caller of an effect, and what the route has checked before it. *)
Definition permitted (eff : Effect) (session : option string) (st : Store) : Prop :=
  match eff with
  | Unchanged => True
  | UserCreated _ body creator =>
      (session ≫= getUser st) = Some creator
      ∧ getUserByUsername st (body_username body) = None
  | EventCreated _ event manager =>
      (session ≫= getUser st) = Some manager
      ∧ User.role manager = event_manager
      ∧ InsertEvent.eventManagerId event = User.id manager
  | EventUpdated id _ manager
  | EventDeleted id manager
  | GuestsUploaded _ id _ manager
  | OrganizerAssigned id _ manager
  | OrganizerRemoved id _ manager =>
      (session ≫= getUser st) = Some manager
      ∧ User.role manager = event_manager
      ∧ ∃ event, getEvent st id = Some event
                 ∧ Event.eventManagerId event = User.id manager
  | GuestCheckedIn _ guest caller =>
      (session ≫= getUser st) = Some caller
      ∧ User.role caller ∈ [organizer; event_manager]
      ∧ getGuest st (Guest.id guest) = Some guest
      ∧ Guest.isCheckedIn guest = false
      ∧ (User.role caller = organizer ->
         Routes.organizerHasAccess st (User.id caller) (Guest.eventId guest) = true)
  end.

End WithEnv.
End Api.

(** ** Conditions on the store *)

Module Invariants.

(** Section 3: the flag of a guest says whether the time and the account
    of the check-in are recorded. *)
Definition guestConsistent (g : Guest.t) : Prop :=
  Guest.isCheckedIn g = true
  ↔ is_Some (Guest.checkedInAt g) ∧ is_Some (Guest.checkedInBy g).

Definition guestsConsistent (st : Store) : Prop :=
  Forall guestConsistent (guests st).

Definition usernamesUnique (st : Store) : Prop :=
  NoDup (User.username <$> users st).

(** The ids of the accounts: a primary key, and never empty. *)
Definition userIdsKey (st : Store) : Prop :=
  NoDup (User.id <$> users st) ∧ Forall (λ u, User.id u ≠ "") (users st).

(** Newest first. *)
Definition newestFirst {A : Type} (key : A -> Z) (l : list A) : Prop :=
  Sorted (Queries.descBy key) l.

End Invariants.

(** * Properties *)

(** Case analysis on a membership in a list that is written out. *)
Ltac role_cases H :=
  repeat (apply elem_of_cons in H as [H|H]; [|]);
  [.. | apply not_elem_of_nil in H; destruct H].

(** ** The storage layer *)

Section StorageFacts.
Context {E : Env}.
Import Storage.

(** Updating the rows with one id, then reading that id back. *)
Lemma head_filter_update (f : Guest.t -> Guest.t) (id : string) (l : list Guest.t) :
  (∀ g, Guest.id (f g) = Guest.id g) ->
  head (filter (λ g, Guest.id g = id)
               ((λ g, if bool_decide (Guest.id g = id) then f g else g) <$> l))
  = f <$> head (filter (λ g, Guest.id g = id) l).
Proof.
  intros Hid. induction l as [|g l IH]; [reflexivity|].
  rewrite fmap_cons, !filter_cons.
  destruct (decide (Guest.id g = id)) as [Heq|Hne].
  - rewrite (bool_decide_eq_true_2 _ Heq).
    rewrite decide_True by (rewrite Hid; exact Heq). reflexivity.
  - rewrite (bool_decide_eq_false_2 _ Hne).
    rewrite decide_False by exact Hne. exact IH.
Qed.

Lemma checkInGuest_returns now id by_ st :
  (checkInGuest now id by_ st).1 = Guest.checkedIn now by_ <$> getGuest st id.
Proof. apply head_filter_update. reflexivity. Qed.

Lemma getGuest_checkInGuest now id by_ st :
  getGuest (checkInGuest now id by_ st).2 id
  = Guest.checkedIn now by_ <$> getGuest st id.
Proof. apply head_filter_update. reflexivity. Qed.

(** A guest that [getGuest] finds carries the id asked for. *)
Lemma getGuest_id st id g : getGuest st id = Some g -> Guest.id g = id.
Proof.
  unfold getGuest. intros H. apply head_Some_elem_of in H.
  apply list_elem_of_filter in H. tauto.
Qed.

Lemma getEvent_id st id e : getEvent st id = Some e -> Event.id e = id.
Proof.
  unfold getEvent. intros H. apply head_Some_elem_of in H.
  apply list_elem_of_filter in H. tauto.
Qed.

(** Every event [getOrganizerEvents] lists is active and is the event of
    one of the organizer's assignments. *)
Lemma getOrganizerEvents_assigned st organizerId e :
  e ∈ getOrganizerEvents st organizerId ->
  Event.isActive e = true
  ∧ getEvent st (Event.id e) = Some e
  ∧ ∃ a, a ∈ eventOrganizers st
         ∧ EventOrganizer.organizerId a = organizerId
         ∧ EventOrganizer.eventId a = Event.id e.
Proof.
  unfold getOrganizerEvents.
  destruct (filter _ (eventOrganizers st)) as [|a0 l] eqn:Hf.
  { intros H. apply not_elem_of_nil in H. destruct H. }
  rewrite <- Hf. clear Hf a0 l. intros H.
  apply list_elem_of_omap in H as (x & Hx & Hsome).
  apply list_elem_of_fmap in Hx as (eid & -> & Heid).
  apply list_elem_of_fmap in Heid as (a & -> & Ha).
  apply list_elem_of_filter in Ha as [Horg Ha].
  destruct (getEvent st (EventOrganizer.eventId a)) as [e'|] eqn:Hev; [|discriminate].
  destruct (Event.isActive e') eqn:Hact; [|discriminate].
  injection Hsome as <-. split; [exact Hact|].
  pose proof (getEvent_id _ _ _ Hev) as Hid.
  split; [by rewrite Hid|].
  exists a. split; [exact Ha|]. split; [exact Horg|]. by symmetry.
Qed.

(** Conversely an assignment to an event that resolves and is active
    puts the event in the list. *)
Lemma getOrganizerEvents_lists st a e :
  a ∈ eventOrganizers st ->
  getEvent st (EventOrganizer.eventId a) = Some e ->
  Event.isActive e = true ->
  e ∈ getOrganizerEvents st (EventOrganizer.organizerId a).
Proof.
  intros Ha Hev Hact. unfold getOrganizerEvents.
  assert (Hin : a ∈ filter (λ a', EventOrganizer.organizerId a'
                                 = EventOrganizer.organizerId a) (eventOrganizers st)).
  { apply list_elem_of_filter. split; [reflexivity | exact Ha]. }
  destruct (filter _ (eventOrganizers st)) as [|a0 l] eqn:Hf.
  { apply not_elem_of_nil in Hin. destruct Hin. }
  rewrite <- Hf in *. clear Hf a0 l.
  apply list_elem_of_omap. exists (Some e). split.
  - apply list_elem_of_fmap. exists (EventOrganizer.eventId a). split; [by rewrite Hev|].
    apply list_elem_of_fmap. exists a. split; [reflexivity | exact Hin].
  - by rewrite Hact.
Qed.

(** Without an assignment of the pair, the access test of check-in fails. *)
Lemma organizerHasAccess_assigned st organizerId eventId :
  Routes.organizerHasAccess st organizerId eventId = true ->
  ∃ a, a ∈ eventOrganizers st
       ∧ EventOrganizer.organizerId a = organizerId
       ∧ EventOrganizer.eventId a = eventId.
Proof.
  unfold Routes.organizerHasAccess. intros H.
  apply bool_decide_eq_true_1 in H.
  apply Exists_exists in H as (e & He & <-).
  apply getOrganizerEvents_assigned in He as (_ & _ & a & Ha). by exists a.
Qed.

End StorageFacts.

(** ** Check-in *)

Section CheckInFacts.
Context {E : Env}.
Import Storage.

(** What the handler does for a guest that is found, is not checked in
    yet, and whose access test is passed or not applied. *)
Lemma checkIn_writes now user guestId st g :
  getGuest st guestId = Some g ->
  Guest.isCheckedIn g = false ->
  (User.role user = organizer ->
   Routes.organizerHasAccess st (User.id user) (Guest.eventId g) = true) ->
  let g' := Guest.checkedIn now (User.id user) g in
  let r := Routes.checkIn now user guestId st in
  r.1 = reply 200 (JSuccess (Some g') msg_checked_in)
  ∧ getGuest r.2 guestId = Some g'
  ∧ auditLogs r.2
    = (auditLogs st
       ++ [AuditLog.mk (gen_random_uuid (serial st)) (Guest.eventId g) (User.id user)
                       "check_in" ("تم تسجيل حضور: " ++ Guest.name g)
                       (Some (Guest.id g)) now])%list.
Proof.
  intros Hg Hin Hacc. cbv zeta. unfold Routes.checkIn. rewrite Hg, Hin.
  assert (Hgate : bool_decide (User.role user = organizer)
                  && negb (Routes.organizerHasAccess st (User.id user) (Guest.eventId g))
                  = false).
  { destruct (decide (User.role user = organizer)) as [Hr|Hr].
    - rewrite (Hacc Hr). apply andb_false_r.
    - by rewrite (bool_decide_eq_false_2 _ Hr). }
  rewrite Hgate.
  pose proof (checkInGuest_returns now guestId (User.id user) st) as Hret.
  pose proof (getGuest_checkInGuest now guestId (User.id user) st) as Hget.
  destruct (checkInGuest now guestId (User.id user) st) as [updated st1] eqn:Hci.
  cbn [fst snd] in Hret, Hget. rewrite Hg in Hret, Hget. cbn in Hret, Hget.
  subst updated. unfold createAuditLog. cbn [fst snd].
  split; [reflexivity|]. split; [exact Hget|].
  injection Hci as _ <-. reflexivity.
Qed.

(** An organizer without any assignment to the guest's event is refused
    and nothing is written. *)
Lemma checkIn_unassigned_organizer now user guestId st g :
  getGuest st guestId = Some g ->
  User.role user = organizer ->
  (∀ a, a ∈ eventOrganizers st ->
        ¬ (EventOrganizer.organizerId a = User.id user
           ∧ EventOrganizer.eventId a = Guest.eventId g)) ->
  Routes.checkIn now user guestId st = (reply 403 (JError msg_forbidden), st).
Proof.
  intros Hg Hrole Hnone. unfold Routes.checkIn. rewrite Hg.
  rewrite (bool_decide_eq_true_2 _ Hrole).
  destruct (Routes.organizerHasAccess st (User.id user) (Guest.eventId g)) eqn:Hacc.
  - apply organizerHasAccess_assigned in Hacc as (a & Ha & Ho & He).
    exfalso. by apply (Hnone a Ha).
  - reflexivity.
Qed.

End CheckInFacts.

(** ** The role gate *)

Lemma requireRole_refusal {E : Env} roles session st r :
  Routes.requireRole roles session st = inl r ->
  r = reply 401 (JError msg_unauthorized) ∨ r = reply 403 (JError msg_forbidden).
Proof.
  unfold Routes.requireRole. intros H.
  destruct session as [userId|]; [|left; congruence].
  destruct (Js.truthy userId); [|left; congruence].
  destruct (Storage.getUser st userId) as [user|]; [|right; congruence].
  destruct (bool_decide (User.role user ∈ roles)); [discriminate|right; congruence].
Qed.

Lemma requireRole_resolves {E : Env} roles userId st user :
  userId ≠ "" ->
  Storage.getUser st userId = Some user ->
  User.role user ∈ roles ->
  Routes.requireRole roles (Some userId) st = inr user.
Proof.
  intros Hne Hget Hrole. unfold Routes.requireRole, Js.truthy.
  rewrite (bool_decide_eq_false_2 _ Hne). cbn [negb]. rewrite Hget.
  by rewrite (bool_decide_eq_true_2 _ Hrole).
Qed.

(** ** The claims about check-in *)

(** C9, amended. For a check-in whose guest id resolves to no stored guest:
    when the session resolves to an organizer or an event manager the
    answer is 404 with status "invalid" ("guest not found"); without a
    session the role gate answers 401, and with a session that resolves to
    no account or to an account of another role it answers 403, before the
    guest is looked up. In every case the answer is neither a success nor a
    duplicate and the store is as it was. *)
Theorem checkIn_unknown_guest_invalid {E : Env} (now : Z) (session : option string)
    (guestId : string) (st : Store) :
  Storage.getGuest st guestId = None ->
  let r := Routes.postCheckIn now session guestId st in
  r.2 = st
  ∧ outcome r.1 ≠ Success
  ∧ outcome r.1 ≠ Duplicate
  ∧ (∀ user, (session ≫= Storage.getUser st) = Some user ->
       Js.truthy_opt session = true ->
       User.role user ∈ [organizer; event_manager] ->
       r.1 = reply 404 (JInvalid msg_guest_not_found) ∧ outcome r.1 = Invalid)
  ∧ (Js.truthy_opt session = false ->
     r.1 = reply 401 (JError msg_unauthorized) ∧ outcome r.1 = Unauthorized)
  ∧ (Js.truthy_opt session = true ->
     match session ≫= Storage.getUser st with
     | Some user => User.role user ∉ [organizer; event_manager]
     | None => True
     end ->
     r.1 = reply 403 (JError msg_forbidden) ∧ outcome r.1 = Forbidden)
  ∧ ∀ user, Routes.checkIn now user guestId st
            = (reply 404 (JInvalid msg_guest_not_found), st).
Proof.
  intros Hnone.
  assert (Hh : ∀ u, Routes.checkIn now u guestId st
                    = (reply 404 (JInvalid msg_guest_not_found), st)).
  { intros u. unfold Routes.checkIn. by rewrite Hnone. }
  cbv zeta. unfold Routes.postCheckIn, Routes.requireRole.
  destruct session as [sid|]; cbn [Js.truthy_opt mbind option_bind].
  - destruct (Js.truthy sid) eqn:Hsid.
    + destruct (Storage.getUser st sid) as [u|] eqn:Hget.
      * destruct (decide (User.role u ∈ [organizer; event_manager])) as [Hin|Hout].
        -- rewrite (bool_decide_eq_true_2 _ Hin), Hh. cbn [fst snd].
           split_and!; first [done | naive_solver].
        -- rewrite (bool_decide_eq_false_2 _ Hout). cbn [fst snd].
           split_and!; first [done | naive_solver].
      * cbn [fst snd]. split_and!; done.
    + cbn [fst snd]. split_and!; done.
  - cbn [fst snd]. split_and!; done.
Qed.

Lemma checkIn_unknown_guest_invalid_witness :
  Storage.getGuest Sample.db "g0" = None
  ∧ (Routes.postCheckIn (E := Sample.env) 500 (Some "o1") "g0" Sample.db).1
    = reply 404 (JInvalid msg_guest_not_found)
  ∧ (Routes.postCheckIn (E := Sample.env) 500 (Some "o1") "g0" Sample.db).2
    = Sample.db.
Proof.
  split; [reflexivity|].
  destruct (checkIn_unknown_guest_invalid (E := Sample.env) 500 (Some "o1") "g0"
              Sample.db) as (Hst & _ & _ & Hok & _); [reflexivity|].
  destruct (Hok Sample.o1) as [Hr _]; [reflexivity | reflexivity | |].
  { apply (bool_decide_unpack _). vm_compute. exact I. }
  split; [exact Hr | exact Hst].
Defined.

(** C9 as stated fails for a caller whom the role gate refuses: the guest
    id "g0" resolves to no guest, yet an administrator is answered 403
    "forbidden" and a caller without a session 401, not "invalid". *)
Lemma checkIn_unknown_guest_gate_counterexample :
  Storage.getGuest Sample.db "g0" = None
  ∧ Storage.getUser Sample.db "adm" = Some Sample.adm
  ∧ User.role Sample.adm = admin
  ∧ Routes.postCheckIn (E := Sample.env) 500 (Some "adm") "g0" Sample.db
    = (reply 403 (JError msg_forbidden), Sample.db)
  ∧ outcome (reply 403 (JError msg_forbidden)) = Forbidden
  ∧ Routes.postCheckIn (E := Sample.env) 500 None "g0" Sample.db
    = (reply 401 (JError msg_unauthorized), Sample.db)
  ∧ outcome (reply 401 (JError msg_unauthorized)) = Unauthorized
  ∧ Forbidden ≠ Invalid ∧ Unauthorized ≠ Invalid.
Proof. repeat split; try reflexivity; discriminate. Qed.

(** C3, the event-manager half, as the code behaves: an event manager who
    does not own the guest's event is not refused. The guest is checked in
    under that manager's id and the answer is a success. *)
Theorem checkIn_foreign_manager_succeeds {E : Env} (now : Z) (user : User.t)
    (guestId : string) (st : Store) (g : Guest.t) (ev : Event.t) :
  User.role user = event_manager ->
  Storage.getGuest st guestId = Some g ->
  Storage.getEvent st (Guest.eventId g) = Some ev ->
  Event.eventManagerId ev ≠ User.id user ->
  Guest.isCheckedIn g = false ->
  let r := Routes.checkIn now user guestId st in
  r.1 = reply 200 (JSuccess (Some (Guest.checkedIn now (User.id user) g)) msg_checked_in)
  ∧ outcome r.1 = Success
  ∧ Storage.getGuest r.2 guestId = Some (Guest.checkedIn now (User.id user) g).
Proof.
  intros Hrole Hg _ _ Hin.
  destruct (checkIn_writes now user guestId st g Hg Hin) as (Hr & Hget & _).
  { rewrite Hrole. discriminate. }
  cbv zeta. rewrite Hr. by repeat split.
Qed.

Lemma checkIn_foreign_manager_succeeds_witness :
  Event.eventManagerId Sample.e1 ≠ User.id Sample.m2
  ∧ Storage.getGuest (Routes.checkIn (E := Sample.env) 500 Sample.m2 "g1" Sample.db).2 "g1"
    = Some (Guest.checkedIn 500 "m2" Sample.g1).
Proof.
  split; [discriminate|].
  apply (checkIn_foreign_manager_succeeds (E := Sample.env) 500 Sample.m2 "g1"
           Sample.db Sample.g1 Sample.e1);
    [reflexivity | reflexivity | reflexivity | discriminate | reflexivity].
Defined.

(** The name shown on a duplicate, case by case. *)
Lemma checkedInByName_cases {E : Env} (st : Store) (g : Guest.t) :
  Routes.checkedInByName st g
  = match Guest.checkedInBy g with
    | Some by_ =>
        if bool_decide (by_ = "") then msg_unknown
        else match Storage.getUser st by_ with
             | Some u => if bool_decide (User.name u = "") then msg_unknown else User.name u
             | None => msg_unknown
             end
    | None => msg_unknown
    end.
Proof.
  unfold Routes.checkedInByName, Js.or_else, Js.truthy.
  destruct (Guest.checkedInBy g) as [by_|]; [|reflexivity].
  destruct (bool_decide (by_ = "")); [reflexivity|]. cbn [negb].
  destruct (Storage.getUser st by_) as [u|]; [|reflexivity].
  cbn [fmap option_fmap option_map]. by destruct (bool_decide (User.name u = "")).
Qed.

(** C4, amended. A check-in of a guest that is already checked in, by a
    caller who passes the access test, answers "duplicate" with the stored
    guest and its stored check-in time; the store is returned as it was, so
    the guest is not touched and no audit entry is added. The name in the
    answer is the display name of the account that checked the guest in,
    and "unknown" when that account does not resolve or when its display
    name is empty. *)
Theorem checkIn_duplicate_keeps_first {E : Env} (now : Z) (user : User.t)
    (guestId : string) (st : Store) (g : Guest.t) :
  Storage.getGuest st guestId = Some g ->
  Guest.isCheckedIn g = true ->
  (User.role user = organizer ->
   Routes.organizerHasAccess st (User.id user) (Guest.eventId g) = true) ->
  Routes.checkIn now user guestId st
  = (reply 200 (JDuplicate g msg_duplicate (Guest.checkedInAt g)
                           (Routes.checkedInByName st g)), st)
  ∧ outcome (Routes.checkIn now user guestId st).1 = Duplicate
  ∧ (∀ by_ u, Guest.checkedInBy g = Some by_ -> by_ ≠ "" ->
              Storage.getUser st by_ = Some u -> User.name u ≠ "" ->
              Routes.checkedInByName st g = User.name u)
  ∧ (∀ by_ u, Guest.checkedInBy g = Some by_ ->
              Storage.getUser st by_ = Some u -> User.name u = "" ->
              Routes.checkedInByName st g = msg_unknown)
  ∧ (∀ by_, Guest.checkedInBy g = Some by_ -> Storage.getUser st by_ = None ->
            Routes.checkedInByName st g = msg_unknown)
  ∧ (Guest.checkedInBy g = None -> Routes.checkedInByName st g = msg_unknown).
Proof.
  intros Hg Hin Hacc.
  assert (Hh : Routes.checkIn now user guestId st
               = (reply 200 (JDuplicate g msg_duplicate (Guest.checkedInAt g)
                                        (Routes.checkedInByName st g)), st)).
  { unfold Routes.checkIn. rewrite Hg, Hin.
    destruct (decide (User.role user = organizer)) as [Hr|Hr].
    - by rewrite (Hacc Hr), andb_false_r.
    - by rewrite (bool_decide_eq_false_2 _ Hr). }
  split; [exact Hh|]. split; [by rewrite Hh|].
  rewrite checkedInByName_cases.
  split; [|split; [|split]].
  - intros by_ u -> Hby -> Hname.
    by rewrite (bool_decide_eq_false_2 _ Hby), (bool_decide_eq_false_2 _ Hname).
  - intros by_ u -> -> Hname.
    rewrite (bool_decide_eq_true_2 _ Hname). by destruct (bool_decide (by_ = "")).
  - intros by_ -> ->. by destruct (bool_decide (by_ = "")).
  - by intros ->.
Qed.

Lemma checkIn_duplicate_keeps_first_witness :
  Routes.checkIn (E := Sample.env) 500 Sample.o1 "g2" Sample.db
  = (reply 200 (JDuplicate Sample.g2 msg_duplicate (Some 100) "Omar"), Sample.db).
Proof.
  apply (checkIn_duplicate_keeps_first (E := Sample.env) 500 Sample.o1 "g2"
           Sample.db Sample.g2); reflexivity.
Defined.

(** C4 as stated fails when the account that checked the guest in still
    resolves but has an empty display name: guest [g3] was checked in by
    [o3], [o3] is in the store, and the answer names "unknown", not the
    account's name. *)
Lemma checkIn_duplicate_empty_name_counterexample :
  Storage.getGuest Sample.db "g3" = Some Sample.g3
  ∧ Guest.checkedInBy Sample.g3 = Some "o3"
  ∧ Storage.getUser Sample.db "o3" = Some Sample.o3
  ∧ (Routes.checkIn (E := Sample.env) 500 Sample.m1 "g3" Sample.db).1
    = reply 200 (JDuplicate Sample.g3 msg_duplicate (Some 110) msg_unknown)
  ∧ User.name Sample.o3 ≠ msg_unknown.
Proof. repeat split; try reflexivity. discriminate. Qed.

(** ** Two check-ins of one guest *)

Section Race.
Context {E : Env}.
Import Storage Interleaving.

(** The step machine run alone is the handler. *)
Lemma alone_is_checkIn now user guestId st :
  alone now user guestId st
  = (Responded (Routes.checkIn now user guestId st).1,
     (Routes.checkIn now user guestId st).2).
Proof.
  unfold alone, Routes.checkIn. cbn [step].
  destruct (getGuest st guestId) as [g|]; [|reflexivity].
  destruct (bool_decide (User.role user = organizer)); cbn [step andb].
  - destruct (Routes.organizerHasAccess st (User.id user) (Guest.eventId g));
      cbn [negb]; [|reflexivity].
    unfold afterAccess. destruct (Guest.isCheckedIn g); cbn [step]; [reflexivity|].
    destruct (checkInGuest now guestId (User.id user) st) as [u st1]. cbn [step].
    by destruct (createAuditLog _ _ _ _ _ _ st1).
  - unfold afterAccess. destruct (Guest.isCheckedIn g); cbn [step]; [reflexivity|].
    destruct (checkInGuest now guestId (User.id user) st) as [u st1]. cbn [step].
    by destruct (createAuditLog _ _ _ _ _ _ st1).
Qed.

Lemma step_read now user guestId st g :
  getGuest st guestId = Some g ->
  User.role user ≠ organizer ->
  step now user guestId AwaitGetGuest st = (afterAccess g, st).
Proof.
  intros Hg Hr. cbn [step]. by rewrite Hg, (bool_decide_eq_false_2 _ Hr).
Qed.

Lemma step_read_organizer now user guestId st g :
  getGuest st guestId = Some g ->
  User.role user = organizer ->
  step now user guestId AwaitGetGuest st = (AwaitOrganizerEvents g, st).
Proof.
  intros Hg Hr. cbn [step]. by rewrite Hg, (bool_decide_eq_true_2 _ Hr).
Qed.

Lemma step_access now user guestId st g :
  Routes.organizerHasAccess st (User.id user) (Guest.eventId g) = true ->
  step now user guestId (AwaitOrganizerEvents g) st = (afterAccess g, st).
Proof. intros Hacc. cbn [step]. by rewrite Hacc. Qed.

(** The reads of a caller who passes the access test bring the request to
    the test of [isCheckedIn] and leave the store alone. *)
Lemma reads_first userA userB guestId now st g pcB :
  getGuest st guestId = Some g ->
  (User.role userA = organizer ->
   Routes.organizerHasAccess st (User.id userA) (Guest.eventId g) = true) ->
  foldl (λ c t, turn userA userB guestId t c) (mkConfig AwaitGetGuest pcB st)
        (replicate (reads userA) (First, now))
  = mkConfig (afterAccess g) pcB st.
Proof.
  intros Hg Hacc. unfold reads.
  destruct (decide (User.role userA = organizer)) as [Hr|Hr].
  - rewrite (bool_decide_eq_true_2 _ Hr). cbn [replicate foldl turn first second store].
    rewrite (step_read_organizer _ _ _ _ _ Hg Hr).
    cbn [first second store]. by rewrite (step_access _ _ _ _ _ (Hacc Hr)).
  - rewrite (bool_decide_eq_false_2 _ Hr). cbn [replicate foldl turn first second store].
    by rewrite (step_read _ _ _ _ _ Hg Hr).
Qed.

Lemma reads_second userA userB guestId now st g pcA :
  getGuest st guestId = Some g ->
  (User.role userB = organizer ->
   Routes.organizerHasAccess st (User.id userB) (Guest.eventId g) = true) ->
  foldl (λ c t, turn userA userB guestId t c) (mkConfig pcA AwaitGetGuest st)
        (replicate (reads userB) (Second, now))
  = mkConfig pcA (afterAccess g) st.
Proof.
  intros Hg Hacc. unfold reads.
  destruct (decide (User.role userB = organizer)) as [Hr|Hr].
  - rewrite (bool_decide_eq_true_2 _ Hr). cbn [replicate foldl turn first second store].
    rewrite (step_read_organizer _ _ _ _ _ Hg Hr).
    cbn [first second store]. by rewrite (step_access _ _ _ _ _ (Hacc Hr)).
  - rewrite (bool_decide_eq_false_2 _ Hr). cbn [replicate foldl turn first second store].
    by rewrite (step_read _ _ _ _ _ Hg Hr).
Qed.

Lemma step_write now user guestId st g :
  step now user guestId (AwaitCheckInGuest g) st
  = (AwaitAuditLog g (Guest.checkedIn now (User.id user) <$> getGuest st guestId),
     (checkInGuest now guestId (User.id user) st).2).
Proof.
  cbn [step]. rewrite <- checkInGuest_returns.
  by destruct (checkInGuest now guestId (User.id user) st).
Qed.

Lemma step_audit now user guestId st g updated :
  step now user guestId (AwaitAuditLog g updated) st
  = (Responded (reply 200 (JSuccess updated msg_checked_in)),
     (createAuditLog now (Guest.eventId g) (User.id user) "check_in"
                     ("تم تسجيل حضور: " ++ Guest.name g) (Some (Guest.id g)) st).2).
Proof. reflexivity. Qed.

Lemma checkInLogs_createAuditLog now eventId userId details guestId st :
  checkInLogs (createAuditLog now eventId userId "check_in" details guestId st).2
  = (checkInLogs st
     ++ [AuditLog.mk (gen_random_uuid (serial st)) eventId userId "check_in"
                     details guestId now])%list.
Proof.
  unfold checkInLogs, createAuditLog. cbn [snd auditLogs].
  rewrite filter_app. f_equal.
Qed.

End Race.

(** C2, as the code behaves. [checkInGuest] updates by id alone, and the
    handler tests [isCheckedIn] on the copy it read earlier. When two
    callers read an invited guest before either writes, both are answered
    with a success, two check_in audit entries are appended, and the
    stored guest carries the second writer's id and time although the first
    caller was told the check-in was theirs. *)
Theorem checkIn_race_both_succeed {E : Env} (st : Store) (guestId : string)
    (g : Guest.t) (userA userB : User.t) (tA tB : Z) :
  Storage.getGuest st guestId = Some g ->
  Guest.isCheckedIn g = false ->
  (User.role userA = organizer ->
   Routes.organizerHasAccess st (User.id userA) (Guest.eventId g) = true) ->
  (User.role userB = organizer ->
   Routes.organizerHasAccess st (User.id userB) (Guest.eventId g) = true) ->
  let c := Interleaving.run userA userB guestId
             (Interleaving.racing userA userB tA tB) st in
  Interleaving.first c
  = Interleaving.Responded
      (reply 200 (JSuccess (Some (Guest.checkedIn tA (User.id userA) g)) msg_checked_in))
  ∧ Interleaving.second c
    = Interleaving.Responded
        (reply 200 (JSuccess (Some (Guest.checkedIn tB (User.id userB) g)) msg_checked_in))
  ∧ Storage.getGuest (Interleaving.store c) guestId
    = Some (Guest.checkedIn tB (User.id userB) g)
  ∧ List.length (Interleaving.checkInLogs (Interleaving.store c))
    = (List.length (Interleaving.checkInLogs st) + 2)%nat.
Proof.
  intros Hg Hin HaccA HaccB. cbv zeta.
  unfold Interleaving.run, Interleaving.racing.
  rewrite !foldl_app.
  rewrite (reads_first userA userB guestId tA st g _ Hg HaccA).
  rewrite (reads_second userA userB guestId tB st g _ Hg HaccB).
  unfold Interleaving.afterAccess. rewrite Hin.
  cbn [foldl Interleaving.turn].
  cbn [Interleaving.first Interleaving.second Interleaving.store].
  rewrite !step_write.
  cbn [Interleaving.first Interleaving.second Interleaving.store].
  rewrite step_write.
  cbn [Interleaving.first Interleaving.second Interleaving.store].
  rewrite getGuest_checkInGuest, Hg. cbn [fmap option_fmap option_map].
  set (st1 := (Storage.checkInGuest tA guestId (User.id userA) st).2).
  set (st2 := (Storage.checkInGuest tB guestId (User.id userB) st1).2).
  rewrite step_audit.
  cbn [Interleaving.first Interleaving.second Interleaving.store].
  rewrite step_audit.
  cbn [Interleaving.first Interleaving.second Interleaving.store].
  set (st3 := (Storage.createAuditLog tA _ _ _ _ _ st2).2).
  split; [reflexivity|]. split; [reflexivity|].
  split.
  - transitivity (Storage.getGuest st2 guestId); [reflexivity|].
    unfold st2. rewrite getGuest_checkInGuest. unfold st1.
    by rewrite getGuest_checkInGuest, Hg.
  - rewrite checkInLogs_createAuditLog. unfold st3.
    rewrite checkInLogs_createAuditLog, !length_app. cbn [List.length].
    change (Interleaving.checkInLogs st2) with (Interleaving.checkInLogs st). lia.
Qed.

Lemma checkIn_race_both_succeed_witness :
  Storage.getGuest
    (Interleaving.store
       (Interleaving.run (E := Sample.env) Sample.o1 Sample.o3 "g1"
          (Interleaving.racing Sample.o1 Sample.o3 500 501) Sample.db)) "g1"
  = Some (Guest.checkedIn 501 "o3" Sample.g1).
Proof.
  apply (checkIn_race_both_succeed (E := Sample.env) Sample.db "g1" Sample.g1
           Sample.o1 Sample.o3 500 501); reflexivity.
Defined.

(** When the first request has finished before the second starts, the
    second is told "duplicate" and the first caller's id and time stay. *)
Lemma checkIn_one_after_the_other {E : Env} (st : Store) (guestId : string)
    (g : Guest.t) (userA userB : User.t) (tA tB : Z) :
  Storage.getGuest st guestId = Some g ->
  Guest.isCheckedIn g = false ->
  (User.role userA = organizer ->
   Routes.organizerHasAccess st (User.id userA) (Guest.eventId g) = true) ->
  (User.role userB = organizer ->
   Routes.organizerHasAccess st (User.id userB) (Guest.eventId g) = true) ->
  let g' := Guest.checkedIn tA (User.id userA) g in
  let c := Interleaving.run userA userB guestId
             (Interleaving.oneAfterTheOther userA userB tA tB) st in
  Interleaving.first c
  = Interleaving.Responded (reply 200 (JSuccess (Some g') msg_checked_in))
  ∧ (∃ name, Interleaving.second c
             = Interleaving.Responded
                 (reply 200 (JDuplicate g' msg_duplicate (Some tA) name)))
  ∧ Storage.getGuest (Interleaving.store c) guestId = Some g'
  ∧ List.length (Interleaving.checkInLogs (Interleaving.store c))
    = (List.length (Interleaving.checkInLogs st) + 1)%nat.
Proof.
  intros Hg Hin HaccA HaccB. cbv zeta.
  set (st1 := (Storage.checkInGuest tA guestId (User.id userA) st).2).
  set (st2 := (Storage.createAuditLog tA (Guest.eventId g) (User.id userA) "check_in"
                 ("تم تسجيل حضور: " ++ Guest.name g) (Some (Guest.id g)) st1).2).
  assert (Hg2 : Storage.getGuest st2 guestId
                = Some (Guest.checkedIn tA (User.id userA) g)).
  { transitivity (Storage.getGuest st1 guestId); [reflexivity|].
    unfold st1. by rewrite getGuest_checkInGuest, Hg. }
  assert (Hc : Interleaving.run userA userB guestId
                 (Interleaving.oneAfterTheOther userA userB tA tB) st
               = Interleaving.mkConfig
                   (Interleaving.Responded
                      (reply 200 (JSuccess (Some (Guest.checkedIn tA (User.id userA) g))
                                           msg_checked_in)))
                   (Interleaving.Responded
                      (reply 200 (JDuplicate (Guest.checkedIn tA (User.id userA) g)
                                    msg_duplicate (Some tA)
                                    (Routes.checkedInByName st2
                                       (Guest.checkedIn tA (User.id userA) g)))))
                   st2).
  { unfold Interleaving.run, Interleaving.oneAfterTheOther.
    rewrite !replicate_add, !foldl_app.
    rewrite (reads_first userA userB guestId tA st g _ Hg HaccA).
    unfold Interleaving.afterAccess at 1. rewrite Hin.
    cbn [replicate foldl Interleaving.turn].
    cbn [Interleaving.first Interleaving.second Interleaving.store].
    rewrite step_write.
    cbn [Interleaving.first Interleaving.second Interleaving.store].
    rewrite step_audit, Hg. cbn [fmap option_fmap option_map].
    fold st1. fold st2.
    rewrite (reads_second userA userB guestId tB st2
               (Guest.checkedIn tA (User.id userA) g) _ Hg2 HaccB).
    reflexivity. }
  rewrite Hc. cbn [Interleaving.first Interleaving.second Interleaving.store].
  split; [reflexivity|]. split; [eexists; reflexivity|]. split; [exact Hg2|].
  unfold st2. rewrite checkInLogs_createAuditLog, length_app. cbn [List.length].
  change (Interleaving.checkInLogs st1) with (Interleaving.checkInLogs st). lia.
Qed.

(** ** Creating accounts *)

(** The three guarded target roles: every pair outside the table of
    section 4.2 is refused and nothing is stored. *)
Lemma createAccount_refuses {E : Env} (now : Z) (currentUser : User.t)
    (body : UserBody) (st : Store) :
  User.role currentUser ∈ Spec.roles ->
  body_role body ∈ [admin; event_manager; organizer] ->
  Spec.mayCreate (User.role currentUser) (body_role body) = false ->
  Routes.createAccount now currentUser body st = (reply 403 (JError msg_forbidden), st).
Proof.
  intros Ha Ht Hmay. unfold Routes.createAccount, Spec.roles in *.
  role_cases Ha; role_cases Ht; rewrite Ha, Ht in *;
    first [discriminate Hmay | reflexivity].
Qed.

(** The pairs of the table pass the permission checks: the account is
    created once the body validates and the username is free. *)
Lemma createAccount_allows {E : Env} (now : Z) (currentUser : User.t)
    (body : UserBody) (st : Store) :
  Spec.mayCreate (User.role currentUser) (body_role body) = true ->
  insertUserSchema body = true ->
  Storage.getUserByUsername st (body_username body) = None ->
  (Routes.createAccount now currentUser body st).1
  = reply 200 (JUser (PublicUser.strip
        (Storage.createUser now body (hashPassword (body_password body))
                            (User.id currentUser) st).1)).
Proof.
  intros Hmay Hok Hfree. unfold Spec.mayCreate in Hmay.
  apply bool_decide_eq_true_1 in Hmay.
  unfold Routes.createAccount. rewrite Hok, Hfree.
  role_cases Hmay; injection Hmay as -> ->; reflexivity.
Qed.

(** C1, the target role super_admin, as the code behaves: the permission
    checks name admin, event_manager and organizer only, so a request for
    the role super_admin passes them whoever the caller is. Once the body
    validates and the username is free the account is created, with the
    role super_admin and the caller as its creator. *)
Theorem createAccount_super_admin_unguarded {E : Env} (now : Z)
    (currentUser : User.t) (body : UserBody) (st : Store) :
  body_role body = super_admin ->
  insertUserSchema body = true ->
  Storage.getUserByUsername st (body_username body) = None ->
  let r := Routes.createAccount now currentUser body st in
  outcome r.1 = Success
  ∧ ∃ u, r.1 = reply 200 (JUser (PublicUser.strip u))
         ∧ users r.2 = (users st ++ [u])%list
         ∧ User.role u = super_admin
         ∧ User.createdById u = Some (User.id currentUser).
Proof.
  intros Hrole Hok Hfree. cbv zeta. unfold Routes.createAccount.
  rewrite Hrole, Hok, Hfree. cbn [negb andb].
  change (bool_decide (super_admin = admin)) with false.
  change (bool_decide (super_admin = event_manager)) with false.
  change (bool_decide (super_admin = organizer)) with false.
  cbn [andb]. unfold Storage.createUser. cbn [fst snd].
  split; [reflexivity|]. eexists. split; [reflexivity|].
  split; [reflexivity|]. split; [exact Hrole | reflexivity].
Qed.

Lemma createAccount_super_admin_unguarded_witness :
  User.role Sample.o1 = organizer
  ∧ outcome (Routes.createAccount (E := Sample.env) 500 Sample.o1
               (mkUserBody super_admin "eve" "secret" "Eve" None) Sample.db).1
    = Success.
Proof.
  split; [reflexivity|].
  apply (createAccount_super_admin_unguarded (E := Sample.env) 500 Sample.o1
           (mkUserBody super_admin "eve" "secret" "Eve" None) Sample.db);
    reflexivity.
Defined.

(** ** Logging in *)

(** When is a login answered "account disabled". *)
Lemma login_disabled_iff {E : Env} (body : LoginBody) (session : option string)
    (st : Store) :
  outcome (Routes.login body session st).1 = AccountDisabled
  ↔ ∃ username password user,
      login_username body = Some username ∧ login_password body = Some password
      ∧ username ≠ "" ∧ password ≠ ""
      ∧ Storage.getUserByUsername st username = Some user
      ∧ User.password user = hashPassword password
      ∧ User.isActive user = false.
Proof.
  unfold Routes.login, Js.truthy_opt, Js.truthy. cbv zeta.
  destruct body as [[username|] [password|]]; cbn [login_username login_password];
    try (split; [by rewrite ?orb_true_r | by intros (?&?&?&?&?&_)]).
  destruct (decide (username = "")) as [Hu|Hu].
  { rewrite (bool_decide_eq_true_2 _ Hu).
    split; [discriminate|]. intros (?&?&?&[= <-]&_&?&_). contradiction. }
  destruct (decide (password = "")) as [Hp|Hp].
  { rewrite (bool_decide_eq_true_2 _ Hp), orb_true_r.
    split; [discriminate|]. intros (?&?&?&_&[= <-]&_&?&_). contradiction. }
  rewrite (bool_decide_eq_false_2 _ Hu), (bool_decide_eq_false_2 _ Hp).
  cbn [negb orb default from_option]. unfold id.
  destruct (Storage.getUserByUsername st username) as [user|] eqn:Hget.
  - destruct (decide (User.password user = hashPassword password)) as [Hpw|Hpw].
    + rewrite (bool_decide_eq_true_2 _ Hpw). cbn [negb].
      destruct (User.isActive user) eqn:Hact; cbn [negb].
      * split; [discriminate|].
        intros (?&?&?&[= <-]&[= <-]&_&_&Hget'&_&Hact').
        rewrite Hget in Hget'. injection Hget' as <-. congruence.
      * split; [|reflexivity]. intros _. by exists username, password, user.
    + rewrite (bool_decide_eq_false_2 _ Hpw). cbn [negb].
      split; [discriminate|].
      intros (?&?&?&[= <-]&[= <-]&_&_&Hget'&Hpw'&_).
      rewrite Hget in Hget'. injection Hget' as <-. contradiction.
  - split; [discriminate|].
    intros (?&?&?&[= <-]&_&_&_&Hget'&_). rewrite Hget in Hget'. discriminate.
Qed.

(** C5, amended. Among the logins that supply a non-empty username and a
    non-empty password, one whose username resolves to no account and one
    whose password hash does not match get the same answer, 401 with the
    same message, and the session is left as it was; a login whose username
    or password is missing or empty is answered 400 "missing data" whatever
    the store holds, the session left as it was; and a login is answered
    "account disabled" exactly when the username resolves, the hash matches
    and the account is not active. *)
Theorem login_failures_indistinguishable {E : Env} (st : Store)
    (session : option string) (u1 p1 u2 p2 : string) (acct : User.t) :
  u1 ≠ "" -> p1 ≠ "" -> u2 ≠ "" -> p2 ≠ "" ->
  Storage.getUserByUsername st u1 = None ->
  Storage.getUserByUsername st u2 = Some acct ->
  User.password acct ≠ hashPassword p2 ->
  Routes.login (mkLoginBody (Some u1) (Some p1)) session st
  = (reply 401 (JError msg_bad_login), session)
  ∧ Routes.login (mkLoginBody (Some u2) (Some p2)) session st
    = (reply 401 (JError msg_bad_login), session)
  ∧ outcome (reply 401 (JError msg_bad_login)) = InvalidCredentials
  ∧ (∀ body session' st',
       Js.truthy_opt (login_username body) = false
       ∨ Js.truthy_opt (login_password body) = false ->
       Routes.login body session' st' = (reply 400 (JError msg_missing), session')
       ∧ outcome (reply 400 (JError msg_missing)) = ValidationError)
  ∧ ∀ body session',
      outcome (Routes.login body session' st).1 = AccountDisabled
      ↔ ∃ username password user,
          login_username body = Some username ∧ login_password body = Some password
          ∧ username ≠ "" ∧ password ≠ ""
          ∧ Storage.getUserByUsername st username = Some user
          ∧ User.password user = hashPassword password
          ∧ User.isActive user = false.
Proof.
  intros Hu1 Hp1 Hu2 Hp2 Hnone Hsome Hpw.
  split; [|split; [|split; [|split]]].
  - unfold Routes.login, Js.truthy_opt, Js.truthy. cbv zeta.
    cbn [login_username login_password default from_option]. unfold id.
    rewrite (bool_decide_eq_false_2 _ Hu1), (bool_decide_eq_false_2 _ Hp1).
    cbn [negb orb]. by rewrite Hnone.
  - unfold Routes.login, Js.truthy_opt, Js.truthy. cbv zeta.
    cbn [login_username login_password default from_option]. unfold id.
    rewrite (bool_decide_eq_false_2 _ Hu2), (bool_decide_eq_false_2 _ Hp2).
    cbn [negb orb]. rewrite Hsome. by rewrite (bool_decide_eq_false_2 _ Hpw).
  - reflexivity.
  - intros body session' st' Hmiss. split; [|reflexivity].
    unfold Routes.login. destruct Hmiss as [-> | ->]; [reflexivity|].
    by rewrite orb_true_r.
  - intros body session'. apply login_disabled_iff.
Qed.

Lemma login_failures_indistinguishable_witness :
  Routes.login (E := Sample.env) (mkLoginBody (Some "ghost") (Some "x")) None Sample.db
  = (reply 401 (JError msg_bad_login), None)
  ∧ Routes.login (E := Sample.env) (mkLoginBody (Some "m1") (Some "x")) None Sample.db
    = (reply 401 (JError msg_bad_login), None).
Proof.
  pose proof (login_failures_indistinguishable (E := Sample.env) Sample.db None
                "ghost" "x" "m1" "x" Sample.m1) as H.
  destruct H as (H1 & H2 & _); try discriminate; try reflexivity.
  split; [exact H1 | exact H2].
Defined.

(** C5 as stated fails when the password of the second login is empty: its
    hash does not match, yet the answer is 400 "missing data", not the 401
    that the unknown username gets. *)
Lemma login_empty_password_counterexample :
  Storage.getUserByUsername Sample.db "ghost" = None
  ∧ Storage.getUserByUsername Sample.db "m1" = Some Sample.m1
  ∧ User.password Sample.m1 ≠ hashPassword (Env := Sample.env) ""
  ∧ (Routes.login (E := Sample.env) (mkLoginBody (Some "ghost") (Some "x")) None
       Sample.db).1
    = reply 401 (JError msg_bad_login)
  ∧ (Routes.login (E := Sample.env) (mkLoginBody (Some "m1") (Some "")) None
       Sample.db).1
    = reply 400 (JError msg_missing)
  ∧ outcome (reply 400 (JError msg_missing)) ≠ InvalidCredentials.
Proof. repeat split; try reflexivity; discriminate. Qed.

(** ** Creating events *)

(** C6, amended. For a caller whose session resolves to an event manager:
    with a name and a date text that [new Date] reads, the event is
    created, stored under the caller's id and active, and the caller owns
    one event more than before, whatever the caller's quota and however
    many events the caller owns already; with a name and a date text that
    [new Date] does not read, the answer is 500 and the store is as it was;
    with the name or the date missing (or empty) the answer is 400 and the
    store is as it was. *)
Theorem createEvent_ignores_quota {E : Env} (now : Z) (sid : string)
    (user : User.t) (body : EventBody) (st : Store) :
  sid ≠ "" ->
  Storage.getUser st sid = Some user ->
  User.role user = event_manager ->
  let r := Routes.postEvents now (Some sid) body st in
  (∀ name date t,
     ev_name body = Some name -> name ≠ "" ->
     ev_date body = Some date -> date ≠ "" ->
     newDate date = Some t ->
     let event :=
       Event.mk (gen_random_uuid (serial st)) name (ev_description body)
                (ev_location body) t (ev_startTime body)
                (ev_endTime body) (User.id user) true now in
     r.1 = reply 200 (JEvent event)
     ∧ events r.2 = (events st ++ [event])%list
     ∧ Spec.eventsUsed r.2 (User.id user) = S (Spec.eventsUsed st (User.id user)))
  ∧ (∀ name date,
       ev_name body = Some name -> name ≠ "" ->
       ev_date body = Some date -> date ≠ "" ->
       newDate date = None ->
       r = (reply 500 (JError msg_event_failed), st))
  ∧ (Js.truthy_opt (ev_name body) = false ∨ Js.truthy_opt (ev_date body) = false ->
     r = (reply 400 (JError msg_event_required), st)).
Proof.
  intros Hsid Hget Hrole. cbv zeta. unfold Routes.postEvents.
  rewrite (requireRole_resolves [event_manager] sid st user Hsid Hget)
    by (rewrite Hrole; apply list_elem_of_singleton; reflexivity).
  unfold Routes.createEvent. split; [|split].
  - intros name date t Hname Hn Hdate Hd Ht. rewrite Hname, Hdate.
    unfold Js.truthy_opt, Js.truthy.
    rewrite (bool_decide_eq_false_2 _ Hn), (bool_decide_eq_false_2 _ Hd).
    cbn [negb default from_option]. unfold id. rewrite Ht.
    unfold Storage.createEvent, Storage.createAuditLog, InsertEvent.inserted.
    cbn. split; [reflexivity|]. split; [reflexivity|].
    unfold Spec.eventsUsed. cbn [events]. rewrite filter_app, length_app.
    rewrite filter_cons_True by reflexivity. cbn [filter list_filter List.length]. lia.
  - intros name date Hname Hn Hdate Hd Ht. rewrite Hname, Hdate.
    unfold Js.truthy_opt, Js.truthy.
    rewrite (bool_decide_eq_false_2 _ Hn), (bool_decide_eq_false_2 _ Hd).
    cbn [negb]. by rewrite Ht.
  - intros [Hn|Hd].
    + by rewrite Hn.
    + assert (Hdate : match ev_date body with
                      | Some d => if Js.truthy d then Some (newDate d) else None
                      | None => None
                      end = None).
      { destruct (ev_date body) as [d|]; [|reflexivity].
        cbn [Js.truthy_opt] in Hd. by rewrite Hd. }
      rewrite Hdate. by destruct (Js.truthy_opt (ev_name body)).
Qed.

Lemma createEvent_ignores_quota_witness :
  User.eventQuota Sample.m1 = 2
  ∧ Spec.eventsUsed Sample.db "m1" = 2%nat
  ∧ Spec.eventsUsed
      (Routes.postEvents (E := Sample.env) 500 (Some "m1")
         (mkEventBody (Some "Expo") None None (Some "2026-01-01") None None)
         Sample.db).2 "m1"
    = 3%nat.
Proof.
  split; [reflexivity|]. split; [reflexivity|].
  pose proof (createEvent_ignores_quota (E := Sample.env) 500 "m1" Sample.m1
                (mkEventBody (Some "Expo") None None (Some "2026-01-01") None None)
                Sample.db) as H.
  destruct H as [H _]; [discriminate | reflexivity | reflexivity |].
  destruct (H "Expo" "2026-01-01" 1767225600000) as (_ & _ & Hused);
    [reflexivity | discriminate | reflexivity | discriminate | reflexivity |].
  exact Hused.
Defined.

(** C6 as stated fails for a date text that [new Date] does not read: the
    body has a name and a date, the Invalid Date passes the test for a
    missing date, the insert throws and the answer is 500, neither the
    created event nor a validation error, with nothing stored. *)
Lemma createEvent_unreadable_date_counterexample :
  Storage.getUser Sample.db "m1" = Some Sample.m1
  ∧ User.role Sample.m1 = event_manager
  ∧ newDate (Env := Sample.env) "not-a-date" = None
  ∧ Routes.postEvents (E := Sample.env) 500 (Some "m1")
      (mkEventBody (Some "Expo") None None (Some "not-a-date") None None) Sample.db
    = (reply 500 (JError msg_event_failed), Sample.db)
  ∧ outcome (reply 500 (JError msg_event_failed)) = Other
  ∧ Other ≠ Success ∧ Other ≠ ValidationError.
Proof. repeat split; try reflexivity; discriminate. Qed.

(** ** Uploading a guest list *)

Lemma first_truthy_missing (row : gmap string Js.cell) (keys : list string) (d : Js.cell) :
  Forall (λ k, row !! k = None) keys ->
  Js.first_truthy row keys d = d.
Proof.
  induction 1 as [|k ks Hk _ IH]; [reflexivity|].
  cbn [Js.first_truthy]. by rewrite Hk.
Qed.

(** The category of a row: the Arabic header wins over [Category]; the
    text found is lower-cased and kept, whatever it says. *)
Lemma guestOfRow_category {E : Env} (eventId : string) (i : nat)
    (row : gmap string Js.cell) (s : string) :
  s ≠ "" ->
  row !! "الفئة" = Some (Js.CStr s)
  ∨ (row !! "الفئة" = None ∧ row !! "Category" = Some (Js.CStr s)) ->
  InsertGuest.category (Routes.guestOfRow eventId i row) = toLowerCase s.
Proof.
  intros Hs H. unfold Routes.guestOfRow. cbn [InsertGuest.category Js.first_truthy].
  destruct H as [-> | [-> ->]]; cbn [Js.cell_truthy Js.cell_toString]; unfold Js.truthy;
    by rewrite (bool_decide_eq_false_2 _ Hs).
Qed.

(** What [uploadGuests] answers to the owner of the event. *)
Lemma uploadGuests_created {E : Env} (now : Z) (user : User.t) (eventId : string)
    (data : list (gmap string Js.cell)) (st : Store) (event : Event.t) :
  Storage.getEvent st eventId = Some event ->
  Event.eventManagerId event = User.id user ->
  (Routes.uploadGuests now user eventId (Some data) st).1
  = reply 200
      (JUpload (List.length data)
         (imap (λ i row,
                  InsertGuest.inserted (gen_random_uuid (serial st + i)%nat)
                    (Routes.guestOfRow eventId (serial st + i)%nat row)) data)).
Proof.
  intros Hev Hown. unfold Routes.uploadGuests.
  rewrite Hev, (bool_decide_eq_true_2 _ Hown). cbn [negb].
  destruct data as [|row data]; [reflexivity|].
  unfold Storage.createGuests. rewrite imap_cons.
  rewrite <- (imap_cons (λ i row, Routes.guestOfRow eventId (serial st + i)%nat row)).
  cbn [fst snd]. unfold Storage.createAuditLog. cbn [fst snd].
  rewrite !length_imap. f_equal. f_equal.
  apply list_eq. intros i. rewrite !list_lookup_imap.
  by destruct ((row :: data) !! i).
Qed.

(** C7, as the code behaves. In the answer to an upload by the owner of
    the event, the guest made from a row has the empty string as name (as
    phone) when the row has none of the name (phone) headers; its category
    is "regular" when the row has no category header and "vip" for the text
    "VIP". For any other non-empty text the category is the lower-cased
    text itself: the route compares it with no list of categories, so a
    text whose lower case is none of the four categories is stored as it
    is, where the claim has "regular". *)
Theorem upload_rows_normalized {E : Env} (now : Z) (user : User.t)
    (eventId : string) (data : list (gmap string Js.cell)) (st : Store)
    (event : Event.t) :
  Storage.getEvent st eventId = Some event ->
  Event.eventManagerId event = User.id user ->
  ∃ created,
    (Routes.uploadGuests now user eventId (Some data) st).1
    = reply 200 (JUpload (List.length data) created)
    ∧ ∀ i row, data !! i = Some row ->
        ∃ g, created !! i = Some g
          ∧ (Forall (λ k, row !! k = None) ["الاسم"; "Name"; "name"] ->
             Guest.name g = "")
          ∧ (Forall (λ k, row !! k = None) ["الجوال"; "Phone"; "phone"] ->
             Guest.phone g = "")
          ∧ (Forall (λ k, row !! k = None) ["الفئة"; "Category"] ->
             Guest.category g = "regular")
          ∧ (row !! "الفئة" = None -> row !! "Category" = Some (Js.CStr "VIP") ->
             Guest.category g = "vip")
          ∧ (∀ s, s ≠ "" ->
               row !! "الفئة" = Some (Js.CStr s)
               ∨ (row !! "الفئة" = None ∧ row !! "Category" = Some (Js.CStr s)) ->
               Guest.category g = toLowerCase s
               ∧ (toLowerCase s ∉ Spec.categories ->
                  Guest.category g ≠ "regular" ∧ Guest.category g ∉ Spec.categories)).
Proof.
  intros Hev Hown. eexists. split; [by apply (uploadGuests_created now user eventId data st event)|].
  intros i row Hrow. rewrite list_lookup_imap, Hrow. cbn [fmap option_fmap option_map].
  eexists. split; [reflexivity|].
  cbn [InsertGuest.inserted Guest.name Guest.phone Guest.category].
  split; [|split; [|split; [|split]]].
  - intros Hmiss. unfold Routes.guestOfRow. cbn [InsertGuest.name].
    by rewrite (first_truthy_missing _ _ _ Hmiss).
  - intros Hmiss. unfold Routes.guestOfRow. cbn [InsertGuest.phone].
    by rewrite (first_truthy_missing _ _ _ Hmiss).
  - intros Hmiss. unfold Routes.guestOfRow. cbn [InsertGuest.category].
    rewrite (first_truthy_missing _ _ _ Hmiss). cbn [Js.cell_toString].
    by rewrite toLowerCase_ascii.
  - intros Har Hcat.
    rewrite (guestOfRow_category eventId _ row "VIP"); [|discriminate|right; by split].
    by rewrite toLowerCase_ascii.
  - intros s Hs Hcat. rewrite (guestOfRow_category eventId _ row s Hs Hcat).
    split; [reflexivity|]. intros Hout. split; [|exact Hout].
    intros Heq. apply Hout. rewrite Heq.
    apply (bool_decide_unpack _). vm_compute. exact I.
Qed.

Lemma upload_rows_normalized_witness :
  ∃ created,
    (Routes.uploadGuests (E := Sample.env) 500 Sample.m1 "e1" (Some Sample.rows)
       Sample.db).1
    = reply 200 (JUpload 3 created)
    ∧ Guest.category <$> created = ["regular"; "vip"; "gold"].
Proof.
  destruct (upload_rows_normalized (E := Sample.env) 500 Sample.m1 "e1" Sample.rows
              Sample.db Sample.e1) as (created & Hr & _); [reflexivity | reflexivity |].
  exists created. split; [exact Hr|].
  vm_compute in Hr. injection Hr as <-. reflexivity.
Defined.

(** C7 as stated fails on a category that is not one of the four: the
    third row of the sheet says "Gold" and its guest is created with the
    category "gold", not "regular". *)
Lemma upload_unknown_category_counterexample :
  Sample.rows !! (2%nat)
  = Some {[ "Phone" := Js.CNum (Js.ofZ 502); "Category" := Js.CStr "Gold" ]}
  ∧ ("gold" ∉ Spec.categories)
  ∧ (Routes.uploadGuests (E := Sample.env) 500 Sample.m1 "e1" (Some Sample.rows)
       Sample.db).1
    = reply 200
        (JUpload 3
           [Guest.mk "row-20" "e1" "Ali" "0501" "regular" 0 "" "qr-20" false None None;
            Guest.mk "row-21" "e1" "Badr" "" "vip" 0 "" "qr-21" false None None;
            Guest.mk "row-22" "e1" "" "502" "gold" 0 "" "qr-22" false None None]).
Proof.
  split; [reflexivity|]. split; [|vm_compute; reflexivity].
  unfold Spec.categories. intros H. role_cases H; discriminate H.
Qed.

(** ** The Assignment Graph *)

Section AssignmentFacts.
Context {E : Env}.

(** Whether the route goes through depends on the accounts and the events
    only, and neither operation touches them. *)
Lemma owns_ext st st' session eventId :
  users st = users st' -> events st = events st' ->
  Spec.owns st session eventId = Spec.owns st' session eventId.
Proof.
  intros Hu He.
  unfold Spec.owns, Routes.requireRole, Storage.getUser, Storage.getEvent.
  by rewrite Hu, He.
Qed.

Lemma postOrganizers_store st session eventId organizerId :
  (Routes.postOrganizers session eventId organizerId st).2
  = if Spec.owns st session eventId
    then (Storage.assignOrganizer eventId organizerId st).2
    else st.
Proof.
  unfold Routes.postOrganizers, Spec.owns, Routes.assignOrganizer.
  destruct (Routes.requireRole [event_manager] session st) as [r|user]; [reflexivity|].
  destruct (Storage.getEvent st eventId) as [event|]; [|reflexivity].
  by destruct (bool_decide (Event.eventManagerId event = User.id user)).
Qed.

Lemma deleteOrganizers_store st session eventId organizerId :
  (Routes.deleteOrganizers session eventId organizerId st).2
  = if Spec.owns st session eventId
    then Storage.removeOrganizer eventId organizerId st
    else st.
Proof.
  unfold Routes.deleteOrganizers, Spec.owns, Routes.removeOrganizer.
  destruct (Routes.requireRole [event_manager] session st) as [r|user]; [reflexivity|].
  destruct (Storage.getEvent st eventId) as [event|]; [|reflexivity].
  by destruct (bool_decide (Event.eventManagerId event = User.id user)).
Qed.

Lemma apply_keeps_accounts_and_events op st :
  users (Spec.apply op st).2 = users st ∧ events (Spec.apply op st).2 = events st.
Proof.
  destruct op as [s e o|s e o]; cbn [Spec.apply].
  - rewrite postOrganizers_store. by destruct (Spec.owns st s e).
  - rewrite deleteOrganizers_store. by destruct (Spec.owns st s e).
Qed.

(** One operation against the count of a pair. *)
Lemma countPair_apply eventId organizerId op st :
  Spec.countPair eventId organizerId (Spec.apply op st).2
  = Spec.tallyOp st eventId organizerId (Spec.countPair eventId organizerId st) op.
Proof.
  destruct op as [s e o|s e o]; cbn [Spec.apply Spec.tallyOp].
  - rewrite postOrganizers_store. destruct (Spec.owns st s e); [|reflexivity].
    cbn [andb]. unfold Spec.countPair, Storage.assignOrganizer.
    cbn [snd eventOrganizers]. rewrite filter_app, length_app.
    destruct (decide (e = eventId ∧ o = organizerId)) as [Hp|Hp].
    + rewrite (bool_decide_eq_true_2 _ Hp), filter_cons_True by exact Hp.
      cbn [filter list_filter List.length]. lia.
    + rewrite (bool_decide_eq_false_2 _ Hp), filter_cons_False by exact Hp.
      cbn [filter list_filter List.length]. lia.
  - rewrite deleteOrganizers_store. destruct (Spec.owns st s e); [|reflexivity].
    cbn [andb]. unfold Spec.countPair, Storage.removeOrganizer.
    cbn [eventOrganizers]. rewrite list_filter_filter.
    destruct (decide (e = eventId ∧ o = organizerId)) as [[-> ->]|Hp].
    + rewrite bool_decide_eq_true_2 by done.
      induction (eventOrganizers st) as [|a l IH]; [reflexivity|].
      rewrite filter_cons_False; [exact IH | tauto].
    + rewrite (bool_decide_eq_false_2 _ Hp). f_equal.
      apply list_filter_iff. intros a. split; [tauto|].
      intros [He Ho]. repeat split; try done.
      intros [<- <-]. apply Hp. by split.
Qed.

Lemma tally_ext st st' eventId organizerId ops n :
  users st = users st' -> events st = events st' ->
  Spec.tally st eventId organizerId ops n = Spec.tally st' eventId organizerId ops n.
Proof.
  intros Hu He. unfold Spec.tally. revert n.
  induction ops as [|op ops IH]; intros n; [reflexivity|].
  cbn [foldl]. rewrite IH. f_equal.
  destruct op as [s e o|s e o]; cbn [Spec.tallyOp];
    by rewrite (owns_ext st st' s e Hu He).
Qed.

End AssignmentFacts.

(** C8, amended. An accepted AssignOrganizer appends a record without
    looking for the pair, and an accepted RemoveOrganizer deletes every
    record of its pair. So after any sequence of the two operations the
    number of stored records of a pair is the number of accepted assigns of
    the pair since its last accepted removal (added to what the store held,
    when no removal was accepted): a pair can be stored more than once. *)
Theorem assignments_count_assigns {E : Env} (eventId organizerId : string)
    (ops : list Spec.Op) (st : Store) :
  Spec.countPair eventId organizerId (Spec.runOps ops st)
  = Spec.tally st eventId organizerId ops (Spec.countPair eventId organizerId st).
Proof.
  revert st. induction ops as [|op ops IH]; intros st; [reflexivity|].
  unfold Spec.runOps, Spec.tally in *. cbn [foldl].
  rewrite IH, countPair_apply.
  destruct (apply_keeps_accounts_and_events op st) as [Hu He].
  apply (tally_ext _ _ eventId organizerId ops _ Hu He).
Qed.

(** C8 as stated fails: the owner of [e1] assigns [o2] twice and the store
    holds the pair twice. *)
Lemma assign_twice_counterexample :
  Spec.countPair "e1" "o2" Sample.db = 0%nat
  ∧ (Spec.apply (E := Sample.env) (Spec.AssignOrganizer (Some "m1") "e1" "o2")
       Sample.db).1
    = reply 200 (JAssignment (EventOrganizer.mk "row-20" "e1" "o2"))
  ∧ Spec.countPair "e1" "o2"
      (Spec.runOps (E := Sample.env)
         [Spec.AssignOrganizer (Some "m1") "e1" "o2";
          Spec.AssignOrganizer (Some "m1") "e1" "o2"] Sample.db)
    = 2%nat.
Proof. repeat split; vm_compute; reflexivity. Qed.





(** * The whole server *)

(** ** What the gates let through *)

Lemma requireRole_inr {E : Env} roles session st user :
  Routes.requireRole roles session st = inr user ->
  (session ≫= Storage.getUser st) = Some user ∧ User.role user ∈ roles
  ∧ ∃ userId, session = Some userId ∧ userId ≠ "".
Proof.
  unfold Routes.requireRole, Js.truthy. intros H.
  destruct session as [userId|]; [|discriminate].
  destruct (decide (userId = "")) as [He|He].
  { rewrite (bool_decide_eq_true_2 _ He) in H. discriminate. }
  rewrite (bool_decide_eq_false_2 _ He) in H. cbn [negb] in H.
  cbn [mbind option_bind].
  destruct (Storage.getUser st userId) as [u|]; [|discriminate].
  destruct (decide (User.role u ∈ roles)) as [Hr|Hr].
  - rewrite (bool_decide_eq_true_2 _ Hr) in H. injection H as <-.
    split; [reflexivity|]. split; [exact Hr|]. by exists userId.
  - rewrite (bool_decide_eq_false_2 _ Hr) in H. discriminate.
Qed.

Lemma requireAuth_passes session :
  Routes.requireAuth session = None ->
  ∃ userId, session = Some userId ∧ userId ≠ "".
Proof.
  unfold Routes.requireAuth, Js.truthy_opt, Js.truthy.
  destruct session as [userId|]; [|discriminate].
  destruct (decide (userId = "")) as [He|He].
  - rewrite (bool_decide_eq_true_2 _ He). discriminate.
  - intros _. by exists userId.
Qed.

Lemma no_session_requireRole {E : Env} roles session st :
  session = None ∨ session = Some "" ->
  Routes.requireRole roles session st = inl (reply 401 (JError msg_unauthorized)).
Proof. by intros [-> | ->]. Qed.

Lemma no_session_requireAuth session :
  session = None ∨ session = Some "" ->
  Routes.requireAuth session = Some (reply 401 (JError msg_unauthorized)).
Proof. by intros [-> | ->]. Qed.

(** Open [serve] at one route. *)
Ltac unfold_routes :=
  cbn [Api.serve]; unfold Api.read, Api.wrote;
  unfold Api.getMe, Api.getAdmins, Api.getEventManagers, Api.getOrganizers,
    Routes.postUsers, Api.getEventList, Api.getEventById, Routes.postEvents,
    Api.patchEventById, Api.deleteEventById, Api.getGuests, Routes.postUploadGuests,
    Routes.postCheckIn, Api.getMyEvents, Api.getOrganizersOfEvent,
    Routes.postOrganizers, Routes.deleteOrganizers, Api.getAuditLogs,
    Api.getStatsSuperAdmin, Api.getStatsAdmin, Api.getStatsEventManager,
    Api.getDownloadQr.

(** X1. Without a session (none, or an empty user id) every route other
    than login and logout answers 401 "unauthorized" and leaves the session
    and the store as they were. *)
Theorem serve_without_session {E : Env} (req : Api.Request)
    (session : option string) (st : Store) :
  session = None ∨ session = Some "" ->
  match req with
  | Api.PostLogin _ | Api.PostLogout => False
  | _ => True
  end ->
  Api.serve req session st
  = Api.mkServed (Api.refuse 401 msg_unauthorized) session st.
Proof.
  intros Hs Hreq.
  pose proof (no_session_requireAuth session Hs) as Hauth.
  assert (Hrole : ∀ roles, Routes.requireRole roles session st
                           = inl (reply 401 (JError msg_unauthorized)))
    by (intros roles; by apply no_session_requireRole).
  destruct req; try (destruct Hreq); unfold_routes;
    rewrite ?Hauth, ?Hrole; try reflexivity.
  destruct Hs as [-> | ->]; reflexivity.
Qed.

Lemma serve_without_session_witness :
  Api.serve (E := Sample.env) (Api.PostCheckIn 500 "g1") None Sample.db
  = Api.mkServed (Api.refuse 401 msg_unauthorized) None Sample.db.
Proof.
  apply (serve_without_session (E := Sample.env) (Api.PostCheckIn 500 "g1") None
           Sample.db); [by left | exact I].
Defined.

(** ** Every request as an effect on the store *)

Ltac unchanged := exists Api.Unchanged; split; [reflexivity | exact I].

Lemma owner_permitted {E : Env} session st user id event :
  (session ≫= Storage.getUser st) = Some user ->
  User.role user ∈ [event_manager] ->
  Storage.getEvent st id = Some event ->
  Event.eventManagerId event = User.id user ->
  (session ≫= Storage.getUser st) = Some user
  ∧ User.role user = event_manager
  ∧ ∃ event, Storage.getEvent st id = Some event
             ∧ Event.eventManagerId event = User.id user.
Proof.
  intros Hs Hr Hev Hown. apply list_elem_of_singleton in Hr.
  split; [exact Hs|]. split; [exact Hr|]. by exists event.
Qed.

(** Whatever the request, the store afterwards is the store before under
    one of the effects, and the route has checked what the effect needs. *)
Lemma serve_effect {E : Env} (req : Api.Request) (session : option string)
    (st : Store) :
  ∃ eff, Api.store_after (Api.serve req session st) = Api.effect eff st
         ∧ Api.permitted eff session st.
Proof.
  destruct req; cbn [Api.serve]; unfold Api.read, Api.wrote;
    cbn [Api.store_after]; try unchanged.
  - (* login *)
    destruct (Routes.login body session st). unchanged.
  - (* POST /api/users *)
    unfold Routes.postUsers.
    destruct (Routes.requireAuth session) as [r|] eqn:Hauth; [unchanged|].
    apply requireAuth_passes in Hauth as (userId & -> & Hne).
    cbn [default from_option]. unfold id.
    destruct (Storage.getUser st userId) as [cu|] eqn:Hcu; [|unchanged].
    unfold Routes.createAccount.
    repeat match goal with
           | |- context [if ?b then _ else _] =>
               lazymatch type of b with bool => destruct b; [unchanged|] end
           end.
    destruct (Storage.getUserByUsername st (body_username body)) eqn:Hfree;
      [unchanged|].
    exists (Api.UserCreated now body cu). split; [reflexivity|].
    split; [exact Hcu | exact Hfree].
  - (* POST /api/events *)
    unfold Routes.postEvents.
    destruct (Routes.requireRole _ session st) as [r|user] eqn:Hgate; [unchanged|].
    apply requireRole_inr in Hgate as (Hs & Hr & _).
    apply list_elem_of_singleton in Hr.
    unfold Routes.createEvent.
    destruct (Js.truthy_opt (ev_name body)); [|unchanged].
    destruct (match ev_date body with
              | Some d => if Js.truthy d then Some (newDate d) else None
              | None => None
              end) as [[date|]|]; [|unchanged|unchanged].
    eexists (Api.EventCreated now _ user). split; [reflexivity|].
    split; [exact Hs|]. split; [exact Hr | reflexivity].
  - (* PATCH /api/events/:id *)
    unfold Api.patchEventById.
    destruct (Routes.requireRole _ session st) as [r|user] eqn:Hgate; [unchanged|].
    apply requireRole_inr in Hgate as (Hs & Hr & _).
    destruct (Storage.getEvent st id) as [event|] eqn:Hev; [|unchanged].
    destruct (decide (Event.eventManagerId event = User.id user)) as [Hown|Hown].
    + rewrite (bool_decide_eq_true_2 _ Hown). cbn [negb].
      destruct (setEvent body) as [set|]; [|unchanged].
      exists (Api.EventUpdated id set user). split; [reflexivity|].
      by apply (owner_permitted session st user id event).
    + rewrite (bool_decide_eq_false_2 _ Hown). unchanged.
  - (* DELETE /api/events/:id *)
    unfold Api.deleteEventById.
    destruct (Routes.requireRole _ session st) as [r|user] eqn:Hgate; [unchanged|].
    apply requireRole_inr in Hgate as (Hs & Hr & _).
    destruct (Storage.getEvent st id) as [event|] eqn:Hev; [|unchanged].
    destruct (decide (Event.eventManagerId event = User.id user)) as [Hown|Hown].
    + rewrite (bool_decide_eq_true_2 _ Hown). cbn [negb snd].
      exists (Api.EventDeleted id user). split; [reflexivity|].
      by apply (owner_permitted session st user id event).
    + rewrite (bool_decide_eq_false_2 _ Hown). unchanged.
  - (* POST /api/events/:id/upload-guests *)
    unfold Routes.postUploadGuests.
    destruct (Routes.requireRole _ session st) as [r|user] eqn:Hgate; [unchanged|].
    apply requireRole_inr in Hgate as (Hs & Hr & _).
    unfold Routes.uploadGuests.
    destruct (Storage.getEvent st id) as [event|] eqn:Hev; [|unchanged].
    destruct (decide (Event.eventManagerId event = User.id user)) as [Hown|Hown].
    + rewrite (bool_decide_eq_true_2 _ Hown). cbn [negb].
      destruct file as [data|]; [|unchanged].
      exists (Api.GuestsUploaded now id
                (imap (λ i row, Routes.guestOfRow id (serial st + i)%nat row) data)
                user).
      split.
      * cbn [Api.effect].
        destruct (Storage.createGuests _ st) as [created st1].
        destruct (Storage.createAuditLog _ _ _ _ _ _ st1). reflexivity.
      * by apply (owner_permitted session st user id event).
    + rewrite (bool_decide_eq_false_2 _ Hown). unchanged.
  - (* POST /api/guests/:id/check-in *)
    unfold Routes.postCheckIn.
    destruct (Routes.requireRole _ session st) as [r|user] eqn:Hgate; [unchanged|].
    apply requireRole_inr in Hgate as (Hs & Hr & _).
    unfold Routes.checkIn.
    destruct (Storage.getGuest st guestId) as [guest|] eqn:Hg; [|unchanged].
    pose proof (getGuest_id st guestId guest Hg) as Hid. subst guestId.
    destruct (decide (User.role user = organizer)) as [Horg|Horg].
    + rewrite (bool_decide_eq_true_2 _ Horg). cbn [andb].
      destruct (Routes.organizerHasAccess st (User.id user) (Guest.eventId guest))
        eqn:Hacc; cbn [negb]; [|unchanged].
      destruct (Guest.isCheckedIn guest) eqn:Hin; [unchanged|].
      exists (Api.GuestCheckedIn now guest user). split.
      * cbn [Api.effect].
        destruct (Storage.checkInGuest now (Guest.id guest) (User.id user) st)
          as [u st1].
        destruct (Storage.createAuditLog _ _ _ _ _ _ st1). reflexivity.
      * by repeat split.
    + rewrite (bool_decide_eq_false_2 _ Horg). cbn [andb].
      destruct (Guest.isCheckedIn guest) eqn:Hin; [unchanged|].
      exists (Api.GuestCheckedIn now guest user). split.
      * cbn [Api.effect].
        destruct (Storage.checkInGuest now (Guest.id guest) (User.id user) st)
          as [u st1].
        destruct (Storage.createAuditLog _ _ _ _ _ _ st1). reflexivity.
      * by repeat split.
  - (* POST /api/events/:id/organizers *)
    unfold Routes.postOrganizers.
    destruct (Routes.requireRole _ session st) as [r|user] eqn:Hgate; [unchanged|].
    apply requireRole_inr in Hgate as (Hs & Hr & _).
    unfold Routes.assignOrganizer.
    destruct (Storage.getEvent st id) as [event|] eqn:Hev; [|unchanged].
    destruct (decide (Event.eventManagerId event = User.id user)) as [Hown|Hown].
    + rewrite (bool_decide_eq_true_2 _ Hown). cbn [negb].
      exists (Api.OrganizerAssigned id organizerId user). split; [reflexivity|].
      by apply (owner_permitted session st user id event).
    + rewrite (bool_decide_eq_false_2 _ Hown). unchanged.
  - (* DELETE /api/events/:id/organizers/:organizerId *)
    unfold Routes.deleteOrganizers.
    destruct (Routes.requireRole _ session st) as [r|user] eqn:Hgate; [unchanged|].
    apply requireRole_inr in Hgate as (Hs & Hr & _).
    unfold Routes.removeOrganizer.
    destruct (Storage.getEvent st id) as [event|] eqn:Hev; [|unchanged].
    destruct (decide (Event.eventManagerId event = User.id user)) as [Hown|Hown].
    + rewrite (bool_decide_eq_true_2 _ Hown). cbn [negb].
      exists (Api.OrganizerRemoved id organizerId user). split; [reflexivity|].
      by apply (owner_permitted session st user id event).
    + rewrite (bool_decide_eq_false_2 _ Hown). unchanged.
Qed.

(** ** What no request does *)

Section EffectFacts.
Context {E : Env}.

Lemma effect_history eff st :
  auditLogs st `prefix_of` auditLogs (Api.effect eff st)
  ∧ users st `prefix_of` users (Api.effect eff st).
Proof.
  destruct eff; cbn [Api.effect];
    unfold Storage.createUser, Storage.createEvent, Storage.createAuditLog,
      Storage.checkInGuest, Storage.assignOrganizer, Storage.removeOrganizer,
      Queries.deleteEvent;
    cbn [fst snd auditLogs users];
    try (split; first [reflexivity | by eexists]).
  unfold Storage.createGuests. destruct rows; cbn [fst snd auditLogs users];
    split; first [reflexivity | by eexists].
Qed.

Lemma serveMany_snoc reqs session req st :
  Api.serveMany (reqs ++ [(session, req)]) st
  = Api.store_after (Api.serve req session (Api.serveMany reqs st)).
Proof. unfold Api.serveMany. by rewrite foldl_app. Qed.

End EffectFacts.

(** X2. Whatever requests are served one after the other, from whatever
    sessions, the audit log and the table of accounts only grow at their
    end: no request removes, reorders or rewrites an audit entry or an
    account. *)
Theorem serve_never_rewrites_history {E : Env}
    (reqs : list (option string * Api.Request)) (st : Store) :
  auditLogs st `prefix_of` auditLogs (Api.serveMany reqs st)
  ∧ users st `prefix_of` users (Api.serveMany reqs st).
Proof.
  induction reqs as [|[session req] reqs IH] using rev_ind; [by split|].
  rewrite serveMany_snoc.
  destruct (serve_effect req session (Api.serveMany reqs st)) as (eff & -> & _).
  destruct (effect_history eff (Api.serveMany reqs st)) as [Ha Hu].
  destruct IH as [IHa IHu]. split; etrans; eauto.
Qed.

Section GuestFacts.
Context {E : Env}.

(** An update of the rows with one id leaves the lookup of another id. *)
Lemma head_filter_update_other (f : Guest.t -> Guest.t) (id id' : string)
    (l : list Guest.t) :
  (∀ g, Guest.id (f g) = Guest.id g) -> id' ≠ id ->
  head (filter (λ g, Guest.id g = id)
               ((λ g, if bool_decide (Guest.id g = id') then f g else g) <$> l))
  = head (filter (λ g, Guest.id g = id) l).
Proof.
  intros Hid Hne. induction l as [|g l IH]; [reflexivity|].
  rewrite fmap_cons, !filter_cons.
  destruct (decide (Guest.id g = id')) as [Heq|Hneq].
  - rewrite (bool_decide_eq_true_2 _ Heq).
    rewrite !decide_False; [exact IH | congruence | rewrite Hid; congruence].
  - rewrite (bool_decide_eq_false_2 _ Hneq).
    destruct (decide (Guest.id g = id)); [reflexivity | exact IH].
Qed.

Lemma head_filter_app {A : Type} (P : A -> Prop) `{!∀ x, Decision (P x)}
    (l k : list A) (x : A) :
  head (filter P l) = Some x -> head (filter P (l ++ k)%list) = Some x.
Proof.
  intros Hh. rewrite filter_app. destruct (filter P l); [discriminate | exact Hh].
Qed.

Lemma effect_keeps_checked_in eff session st guestId g :
  Api.permitted eff session st ->
  Storage.getGuest st guestId = Some g ->
  Guest.isCheckedIn g = true ->
  Storage.getGuest (Api.effect eff st) guestId = Some g.
Proof.
  intros Hperm Hg Hin.
  destruct eff; cbn [Api.effect]; try exact Hg.
  - (* upload *)
    unfold Storage.getGuest, Storage.createGuests, Storage.createAuditLog.
    destruct rows; cbn [fst snd guests]; [exact Hg|].
    by apply head_filter_app.
  - (* check-in of another guest *)
    destruct Hperm as (_ & _ & Hguest & Hnot & _).
    assert (Hne : Guest.id guest ≠ guestId).
    { intros Heq. rewrite Heq, Hg in Hguest. injection Hguest as <-. congruence. }
    unfold Storage.getGuest, Storage.checkInGuest, Storage.createAuditLog.
    cbn [fst snd guests].
    rewrite head_filter_update_other; [exact Hg | reflexivity | exact Hne].
Qed.

Lemma effect_guestsConsistent eff st :
  Invariants.guestsConsistent st ->
  Invariants.guestsConsistent (Api.effect eff st).
Proof.
  unfold Invariants.guestsConsistent. intros Hinv.
  destruct eff; cbn [Api.effect]; try exact Hinv.
  - (* upload *)
    unfold Storage.createGuests, Storage.createAuditLog.
    destruct rows as [|row rows]; cbn [fst snd guests]; [exact Hinv|].
    apply Forall_app. split; [exact Hinv|].
    apply Forall_forall. intros g Hg.
    apply list_elem_of_lookup in Hg as [i Hi].
    rewrite list_lookup_imap in Hi.
    destruct ((row :: rows) !! i) as [r|]; [|discriminate].
    injection Hi as <-. unfold Invariants.guestConsistent. cbn.
    split; [discriminate|]. intros [[? [=]] _].
  - (* check-in *)
    unfold Storage.checkInGuest, Storage.createAuditLog. cbn [fst snd guests].
    apply Forall_fmap. eapply Forall_impl; [exact Hinv|].
    intros g Hg. cbn.
    destruct (bool_decide (Guest.id g = Guest.id guest)); [|exact Hg].
    unfold Invariants.guestConsistent. cbn. split; [|reflexivity].
    intros _. split; by eexists.
Qed.

End GuestFacts.

(** X3. A check-in is final: once a guest is stored as checked in, no
    sequence of requests served one after the other, from whatever
    sessions, changes the stored guest; the time and the account of the
    first check-in stay. *)
Theorem checked_in_is_final {E : Env} (reqs : list (option string * Api.Request))
    (st : Store) (guestId : string) (g : Guest.t) :
  Storage.getGuest st guestId = Some g ->
  Guest.isCheckedIn g = true ->
  Storage.getGuest (Api.serveMany reqs st) guestId = Some g.
Proof.
  intros Hg Hin.
  induction reqs as [|[session req] reqs IH] using rev_ind; [exact Hg|].
  rewrite serveMany_snoc.
  destruct (serve_effect req session (Api.serveMany reqs st)) as (eff & -> & Hperm).
  by apply (effect_keeps_checked_in eff session).
Qed.

Lemma checked_in_is_final_witness :
  Storage.getGuest
    (Api.serveMany (E := Sample.env)
       [(Some "o3", Api.PostCheckIn 600 "g2");
        (Some "m1", Api.PatchEvent "e1" (Js.Obj [("isActive", Js.Bool false)]));
        (Some "m1", Api.PostUploadGuests 610 "e1" (Some Sample.rows));
        (Some "o1", Api.PostCheckIn 620 "g1");
        (Some "m2", Api.PostCheckIn 630 "g2")] Sample.db) "g2"
  = Some Sample.g2.
Proof.
  apply (checked_in_is_final (E := Sample.env)); reflexivity.
Defined.

(** X4. If in the store the flag of every guest is set exactly when its
    check-in time and account are recorded, the same holds after any
    sequence of requests served one after the other. *)
Theorem guests_stay_consistent {E : Env} (reqs : list (option string * Api.Request))
    (st : Store) :
  Invariants.guestsConsistent st ->
  Invariants.guestsConsistent (Api.serveMany reqs st).
Proof.
  intros Hinv.
  induction reqs as [|[session req] reqs IH] using rev_ind; [exact Hinv|].
  rewrite serveMany_snoc.
  destruct (serve_effect req session (Api.serveMany reqs st)) as (eff & -> & _).
  by apply effect_guestsConsistent.
Qed.

Lemma guests_stay_consistent_witness :
  Invariants.guestsConsistent
    (Api.serveMany (E := Sample.env)
       [(Some "m1", Api.PostUploadGuests 610 "e1" (Some Sample.rows));
        (Some "o1", Api.PostCheckIn 620 "g1")] Sample.db).
Proof.
  apply (guests_stay_consistent (E := Sample.env)).
  unfold Invariants.guestsConsistent, Invariants.guestConsistent.
  repeat constructor; cbn; try discriminate; try (by eexists);
    intros [[? [=]] _].
Defined.

(** X5. A request changes the events or the assignments only when its
    session resolves to an account with the role event_manager, and it
    changes the guests only when the session resolves to an event manager
    or an organizer. *)
Theorem tables_changed_by_staff_only {E : Env} (req : Api.Request)
    (session : option string) (st : Store) :
  (∀ user, (session ≫= Storage.getUser st) = Some user ->
           User.role user ≠ event_manager) ->
  let st' := Api.store_after (Api.serve req session st) in
  events st' = events st
  ∧ eventOrganizers st' = eventOrganizers st
  ∧ ((∀ user, (session ≫= Storage.getUser st) = Some user ->
              User.role user ≠ organizer) ->
     guests st' = guests st).
Proof.
  intros Hrole. cbv zeta.
  destruct (serve_effect req session st) as (eff & -> & Hperm).
  destruct eff; cbn [Api.permitted] in Hperm;
    try (destruct Hperm as (Hs & Hr & _); exfalso; by apply (Hrole _ Hs)).
  - by repeat split.
  - by repeat split.
  - destruct Hperm as (Hs & Hr & _).
    split; [reflexivity|]. split; [reflexivity|]. intros Horg. exfalso.
    apply elem_of_cons in Hr as [Hr|Hr]; [by apply (Horg _ Hs)|].
    apply list_elem_of_singleton in Hr. by apply (Hrole _ Hs).
Qed.

Lemma tables_changed_by_staff_only_witness :
  events (Api.store_after
            (Api.serve (E := Sample.env)
               (Api.PostEvents 500
                  (mkEventBody (Some "Expo") None None (Some "2026-01-01") None None))
               (Some "adm") Sample.db))
  = events Sample.db.
Proof.
  apply (tables_changed_by_staff_only (E := Sample.env)
           (Api.PostEvents 500
              (mkEventBody (Some "Expo") None None (Some "2026-01-01") None None))
           (Some "adm") Sample.db).
  intros user [= <-]. discriminate.
Defined.

Section AccountFacts.
Context {E : Env}.

Lemma getUserByUsername_None st username :
  Storage.getUserByUsername st username = None ->
  username ∉ User.username <$> users st.
Proof.
  unfold Storage.getUserByUsername. intros H Hin.
  apply head_None in H.
  apply list_elem_of_fmap in Hin as (u & -> & Hu).
  by apply (filter_nil_not_elem_of _ _ u H).
Qed.

Lemma effect_usernamesUnique eff session st :
  Api.permitted eff session st ->
  Invariants.usernamesUnique st ->
  Invariants.usernamesUnique (Api.effect eff st).
Proof.
  unfold Invariants.usernamesUnique. intros Hperm Hinv.
  destruct eff; cbn [Api.effect]; try exact Hinv.
  - destruct Hperm as [_ Hfree]. apply getUserByUsername_None in Hfree.
    unfold Storage.createUser. cbn [snd users]. rewrite fmap_app.
    apply NoDup_app. split; [exact Hinv|]. split.
    + intros x Hx Hx'. apply list_elem_of_singleton in Hx'. cbn in Hx'. by subst x.
    + apply NoDup_singleton.
  - unfold Storage.createGuests. by destruct rows.
Qed.

End AccountFacts.

(** X6. Usernames stay unique among requests served one after the other:
    if no two accounts of the store share a username, none do after any
    sequence of requests, each served to its end before the next begins.
    (The route reads the table and then inserts; two creations that
    interleave at that point are outside this statement.) *)
Theorem usernames_stay_unique {E : Env} (reqs : list (option string * Api.Request))
    (st : Store) :
  Invariants.usernamesUnique st ->
  Invariants.usernamesUnique (Api.serveMany reqs st).
Proof.
  intros Hinv.
  induction reqs as [|[session req] reqs IH] using rev_ind; [exact Hinv|].
  rewrite serveMany_snoc.
  destruct (serve_effect req session (Api.serveMany reqs st)) as (eff & -> & Hperm).
  by apply (effect_usernamesUnique eff session).
Qed.

Lemma usernames_stay_unique_witness :
  Invariants.usernamesUnique
    (Api.serveMany (E := Sample.env)
       [(Some "m1", Api.PostUsers 500 (mkUserBody organizer "o9" "secret" "Ohoud" None));
        (Some "m1", Api.PostUsers 510 (mkUserBody organizer "o9" "other" "Twin" None))]
       Sample.db).
Proof.
  apply (usernames_stay_unique (E := Sample.env)).
  unfold Invariants.usernamesUnique. apply (bool_decide_unpack _). vm_compute. exact I.
Defined.

(** ** Sessions *)

(** Looking a row up by a column that is a key gives that row. *)
Lemma head_filter_key {A : Type} (f : A -> string) (l : list A) (x : A) :
  NoDup (f <$> l) -> x ∈ l ->
  head (filter (λ y, f y = f x) l) = Some x.
Proof.
  induction l as [|y l IH]; intros Hnd Hin.
  { by apply not_elem_of_nil in Hin. }
  rewrite fmap_cons in Hnd. apply NoDup_cons in Hnd as [Hy Hnd].
  rewrite filter_cons.
  apply elem_of_cons in Hin as [->|Hin].
  - by rewrite decide_True.
  - destruct (decide (f y = f x)) as [Heq|Hne]; [|by apply IH].
    exfalso. apply Hy. rewrite Heq. by apply list_elem_of_fmap_2.
Qed.

(** X7. When the account ids are a key and none is empty, the session that
    a successful login sets resolves to the account that logged in:
    GET /api/auth/me with that session answers 200 with the same user that
    the login answered. *)
Theorem login_then_me {E : Env} (body : LoginBody) (session : option string)
    (st : Store) (pu : PublicUser.t) :
  Invariants.userIdsKey st ->
  (Routes.login body session st).1 = reply 200 (JLogin pu) ->
  Api.getMe (Routes.login body session st).2 st
  = VResponse (reply 200 (JUser pu)).
Proof.
  intros [Hnd Hids]. unfold Routes.login. cbv zeta.
  destruct (negb (Js.truthy_opt (login_username body))
            || negb (Js.truthy_opt (login_password body))); [discriminate|].
  destruct (Storage.getUserByUsername st (default "" (login_username body)))
    as [user|] eqn:Hget; [|discriminate].
  destruct (negb (bool_decide (User.password user = _))); [discriminate|].
  destruct (negb (User.isActive user)); [discriminate|].
  cbn [fst snd]. intros [= <-].
  assert (Hin : user ∈ users st).
  { unfold Storage.getUserByUsername in Hget. apply head_Some_elem_of in Hget.
    apply list_elem_of_filter in Hget. tauto. }
  assert (Hne : User.id user ≠ "").
  { rewrite Forall_forall in Hids. by apply Hids. }
  unfold Api.getMe, Js.truthy_opt, Js.truthy.
  rewrite (bool_decide_eq_false_2 _ Hne). cbn [negb default from_option]. unfold id.
  unfold Storage.getUser. by rewrite (head_filter_key User.id (users st) user Hnd Hin).
Qed.

Lemma login_then_me_witness :
  Api.getMe
    (Routes.login (E := Sample.env) (mkLoginBody (Some "o1") (Some "o1-pw")) None
       Sample.db).2 Sample.db
  = VResponse (reply 200 (JUser (PublicUser.strip Sample.o1))).
Proof.
  apply (login_then_me (E := Sample.env) (mkLoginBody (Some "o1") (Some "o1-pw")) None
           Sample.db (PublicUser.strip Sample.o1)); [|reflexivity].
  split.
  - apply (bool_decide_unpack _). vm_compute. exact I.
  - repeat constructor; discriminate.
Defined.

(** ** Removing an assignment, deleting an event *)

(** X8. After the owner removes an organizer from an event, the access
    test of check-in fails for that organizer and that event, so the
    organizer's check-in of any guest of the event is answered 403 and
    nothing is written; and removing the same pair again leaves the store
    as it is. *)
Theorem removeOrganizer_revokes {E : Env} (user : User.t)
    (eventId organizerId : string) (st : Store) (event : Event.t) :
  Storage.getEvent st eventId = Some event ->
  Event.eventManagerId event = User.id user ->
  let st' := (Routes.removeOrganizer user eventId organizerId st).2 in
  Routes.organizerHasAccess st' organizerId eventId = false
  ∧ Routes.removeOrganizer user eventId organizerId st' = (reply 200 JOk, st')
  ∧ ∀ now caller guestId g,
      User.id caller = organizerId -> User.role caller = organizer ->
      Storage.getGuest st' guestId = Some g -> Guest.eventId g = eventId ->
      Routes.checkIn now caller guestId st' = (reply 403 (JError msg_forbidden), st').
Proof.
  intros Hev Hown. cbv zeta.
  assert (Hst : (Routes.removeOrganizer user eventId organizerId st).2
                = Storage.removeOrganizer eventId organizerId st).
  { unfold Routes.removeOrganizer. by rewrite Hev, (bool_decide_eq_true_2 _ Hown). }
  rewrite Hst. set (st' := Storage.removeOrganizer eventId organizerId st).
  assert (Hnone : ∀ a, a ∈ eventOrganizers st' ->
                       ¬ (EventOrganizer.organizerId a = organizerId
                          ∧ EventOrganizer.eventId a = eventId)).
  { intros a Ha [Ho He]. unfold st', Storage.removeOrganizer in Ha.
    cbn [eventOrganizers] in Ha. apply list_elem_of_filter in Ha as [Hnot _].
    apply Hnot. by split. }
  split; [|split].
  - destruct (Routes.organizerHasAccess st' organizerId eventId) eqn:Hacc; [|reflexivity].
    apply organizerHasAccess_assigned in Hacc as (a & Ha & Ho & He).
    exfalso. by apply (Hnone a Ha).
  - unfold Routes.removeOrganizer.
    change (Storage.getEvent st' eventId) with (Storage.getEvent st eventId).
    rewrite Hev, (bool_decide_eq_true_2 _ Hown). cbn [negb]. f_equal.
    unfold st', Storage.removeOrganizer. cbn [eventOrganizers users events guests
      auditLogs serial]. f_equal.
    rewrite list_filter_filter. apply list_filter_iff. tauto.
  - intros now caller guestId g Hid Hrole Hg Hge.
    apply (checkIn_unassigned_organizer now caller guestId st' g Hg Hrole).
    intros a Ha. rewrite Hid, Hge. by apply Hnone.
Qed.

Lemma removeOrganizer_revokes_witness :
  Routes.organizerHasAccess Sample.db "o1" "e1" = true
  ∧ Routes.checkIn (E := Sample.env) 500 Sample.o1 "g1"
      (Routes.removeOrganizer Sample.m1 "e1" "o1" Sample.db).2
    = (reply 403 (JError msg_forbidden),
       (Routes.removeOrganizer Sample.m1 "e1" "o1" Sample.db).2).
Proof.
  split; [reflexivity|].
  destruct (removeOrganizer_revokes (E := Sample.env) Sample.m1 "e1" "o1" Sample.db
              Sample.e1) as (_ & _ & Hrefused); [reflexivity | reflexivity |].
  apply (Hrefused 500 Sample.o1 "g1" Sample.g1); reflexivity.
Defined.

(** X9. After the owner deletes an event, the event resolves no more, the
    other events resolve as before, GET /api/events/:id answers 404 to any
    session, and no organizer passes the access test of check-in for it. *)
Theorem deleteEvent_removes {E : Env} (sid : string) (user : User.t) (id : string)
    (st : Store) (event : Event.t) :
  sid ≠ "" ->
  Storage.getUser st sid = Some user ->
  User.role user = event_manager ->
  Storage.getEvent st id = Some event ->
  Event.eventManagerId event = User.id user ->
  let r := Api.deleteEventById (Some sid) id st in
  r.1 = VResponse (reply 200 JOk)
  ∧ Storage.getEvent r.2 id = None
  ∧ (∀ id', id' ≠ id -> Storage.getEvent r.2 id' = Storage.getEvent st id')
  ∧ (∀ session, session ≠ None -> session ≠ Some "" ->
       Api.getEventById session id r.2 = Api.refuse 404 msg_event_not_found)
  ∧ ∀ organizerId, Routes.organizerHasAccess r.2 organizerId id = false.
Proof.
  intros Hsid Hget Hrole Hev Hown. cbv zeta.
  unfold Api.deleteEventById.
  rewrite (requireRole_resolves [event_manager] sid st user Hsid Hget)
    by (rewrite Hrole; by apply list_elem_of_singleton).
  rewrite Hev, (bool_decide_eq_true_2 _ Hown). cbn [negb fst snd].
  assert (Hgone : Storage.getEvent (Queries.deleteEvent id st) id = None).
  { unfold Storage.getEvent, Queries.deleteEvent. cbn [events].
    rewrite list_filter_filter. apply head_None.
    induction (events st) as [|e l IH]; [reflexivity|].
    rewrite filter_cons_False; [exact IH | tauto]. }
  split; [reflexivity|]. split; [exact Hgone|]. split; [|split].
  - intros id' Hne. unfold Storage.getEvent, Queries.deleteEvent. cbn [events].
    rewrite list_filter_filter. f_equal. apply list_filter_iff.
    intros e. split; [tauto|]. intros He. split; [exact He | congruence].
  - intros session Hs1 Hs2. unfold Api.getEventById, Routes.requireAuth,
      Js.truthy_opt, Js.truthy.
    destruct session as [s|]; [|done].
    rewrite bool_decide_eq_false_2 by congruence. cbn [negb]. by rewrite Hgone.
  - intros organizerId.
    destruct (Routes.organizerHasAccess _ organizerId id) eqn:Hacc; [|reflexivity].
    unfold Routes.organizerHasAccess in Hacc. apply bool_decide_eq_true_1 in Hacc.
    apply Exists_exists in Hacc as (e & He & Hid).
    apply getOrganizerEvents_assigned in He as (_ & Hres & _).
    rewrite Hid, Hgone in Hres. discriminate.
Qed.

Lemma deleteEvent_removes_witness :
  Storage.getEvent (Api.deleteEventById (Some "m1") "e1" Sample.db).2 "e1" = None
  ∧ Storage.getEvent (Api.deleteEventById (Some "m1") "e1" Sample.db).2 "e2"
    = Some Sample.e2.
Proof.
  destruct (deleteEvent_removes (E := Sample.env) "m1" Sample.m1 "e1" Sample.db Sample.e1)
    as (_ & Hgone & Hrest & _); try reflexivity; try discriminate.
  split; [exact Hgone|]. rewrite Hrest; [reflexivity | discriminate].
Defined.

(** ** Listings *)

#[local] Instance descBy_total {A : Type} (key : A -> Z) : Total (Queries.descBy key).
Proof. intros a b. unfold Queries.descBy. lia. Qed.

Lemma orderByDesc_sorted {A : Type} (key : A -> Z) (l : list A) :
  Invariants.newestFirst key (Queries.orderByDesc key l)
  ∧ Queries.orderByDesc key l ≡ₚ l.
Proof.
  split.
  - apply (Sorted_merge_sort (Queries.descBy key)).
  - apply (merge_sort_Permutation (Queries.descBy key)).
Qed.

(** X10. When GET /api/events/:id/audit-logs answers with a list, the list
    holds exactly the audit entries of that event, each as often as it is
    stored, by decreasing timestamp; the caller is an event manager, an
    admin or a super admin, and an event manager only gets the entries of an
    event of their own. *)
Theorem getAuditLogs_newest_first {E : Env} (session : option string) (id : string)
    (st : Store) (l : list AuditLog.t) :
  Api.getAuditLogs session id st = VLogs l ->
  Invariants.newestFirst AuditLog.timestamp l
  ∧ l ≡ₚ filter (λ x, AuditLog.eventId x = id) (auditLogs st)
  ∧ ∃ user event,
      (session ≫= Storage.getUser st) = Some user
      ∧ User.role user ∈ [event_manager; super_admin; admin]
      ∧ Storage.getEvent st id = Some event
      ∧ (User.role user = event_manager ->
         Event.eventManagerId event = User.id user).
Proof.
  unfold Api.getAuditLogs.
  destruct (Routes.requireRole _ session st) as [r|user] eqn:Hgate; [discriminate|].
  apply requireRole_inr in Hgate as (Hs & Hr & _).
  destruct (Storage.getEvent st id) as [event|] eqn:Hev; [|discriminate].
  destruct (bool_decide (User.role user = event_manager)
            && negb (bool_decide (Event.eventManagerId event = User.id user)))
    eqn:Hown; [discriminate|].
  intros [= <-]. unfold Queries.getAuditLogsByEvent.
  destruct (orderByDesc_sorted AuditLog.timestamp
              (filter (λ x, AuditLog.eventId x = id) (auditLogs st))) as [Hsorted Hperm].
  split; [exact Hsorted|]. split; [exact Hperm|].
  exists user, event. repeat split; try done.
  intros Hm. rewrite (bool_decide_eq_true_2 _ Hm) in Hown. cbn [andb] in Hown.
  apply negb_false_iff, bool_decide_eq_true_1 in Hown. exact Hown.
Qed.

Lemma getAuditLogs_newest_first_witness :
  Invariants.newestFirst AuditLog.timestamp
    (Queries.getAuditLogsByEvent
       (Api.serveMany (E := Sample.env)
          [(Some "o1", Api.PostCheckIn 620 "g1");
           (Some "m1", Api.PostUploadGuests 630 "e1" (Some Sample.rows))] Sample.db)
       "e1").
Proof.
  apply (getAuditLogs_newest_first (E := Sample.env) (Some "m1") "e1"
           (Api.serveMany (E := Sample.env)
              [(Some "o1", Api.PostCheckIn 620 "g1");
               (Some "m1", Api.PostUploadGuests 630 "e1" (Some Sample.rows))]
              Sample.db)).
  reflexivity.
Defined.

Example getAuditLogs_order :
  AuditLog.timestamp
  <$> Queries.getAuditLogsByEvent
        (Api.serveMany (E := Sample.env)
           [(Some "o1", Api.PostCheckIn 620 "g1");
            (Some "m1", Api.PostUploadGuests 630 "e1" (Some Sample.rows))] Sample.db)
        "e1"
  = [630; 620].
Proof. vm_compute. reflexivity. Qed.

(** X11. When GET /api/events answers with a list: an event manager gets
    exactly the events they own, by decreasing date; an organizer gets only
    active events, each one the event of one of their assignments; any
    other account gets all the events, by decreasing date. *)
Theorem getEventList_scoped {E : Env} (session : option string) (st : Store)
    (l : list Event.t) :
  Api.getEventList session st = VEvents l ->
  ∃ user,
    (session ≫= Storage.getUser st) = Some user
    ∧ (User.role user = event_manager ->
       l ≡ₚ filter (λ e, Event.eventManagerId e = User.id user) (events st)
       ∧ Invariants.newestFirst Event.date l)
    ∧ (User.role user = organizer ->
       ∀ e, e ∈ l ->
         Event.isActive e = true
         ∧ ∃ a, a ∈ eventOrganizers st
                ∧ EventOrganizer.organizerId a = User.id user
                ∧ EventOrganizer.eventId a = Event.id e)
    ∧ (User.role user ≠ event_manager -> User.role user ≠ organizer ->
       l ≡ₚ events st ∧ Invariants.newestFirst Event.date l).
Proof.
  unfold Api.getEventList.
  destruct (Routes.requireAuth session) as [r|] eqn:Hauth; [discriminate|].
  apply requireAuth_passes in Hauth as (userId & -> & Hne).
  cbn [default from_option mbind option_bind]. unfold id.
  destruct (Storage.getUser st userId) as [user|]; [|discriminate].
  intros [= <-]. exists user. split; [reflexivity|].
  split; [|split].
  - intros Hm. rewrite (bool_decide_eq_true_2 _ Hm).
    unfold Queries.getEventsByManager.
    destruct (orderByDesc_sorted Event.date
                (filter (λ e, Event.eventManagerId e = User.id user) (events st)));
      by split.
  - intros Ho e. rewrite Ho.
    change (bool_decide (organizer = event_manager)) with false.
    change (bool_decide (organizer = organizer)) with true. cbn iota.
    intros He. apply getOrganizerEvents_assigned in He as (Hact & _ & Ha).
    by split.
  - intros Hm Ho.
    rewrite (bool_decide_eq_false_2 _ Hm), (bool_decide_eq_false_2 _ Ho).
    unfold Queries.getEvents.
    destruct (orderByDesc_sorted Event.date (events st)); by split.
Qed.

Lemma getEventList_scoped_witness :
  Api.getEventList (Some "o1") Sample.db = VEvents [Sample.e1]
  ∧ ∃ user, (Some "o1" ≫= Storage.getUser Sample.db) = Some user.
Proof.
  split; [reflexivity|].
  destruct (getEventList_scoped (E := Sample.env) (Some "o1") Sample.db [Sample.e1])
    as (user & Hu & _); [reflexivity|].
  by exists user.
Defined.

(** X12. The organizers listed for an event are exactly the accounts that
    the organizer ids of the event's assignments resolve to: an assignment
    whose organizer id resolves to no account is passed over, so the list is
    never longer than the number of assignments of the event. *)
Theorem getEventOrganizers_resolved {E : Env} (st : Store) (eventId : string) :
  (∀ u, u ∈ Queries.getEventOrganizers st eventId
        ↔ ∃ a, a ∈ eventOrganizers st
               ∧ EventOrganizer.eventId a = eventId
               ∧ Storage.getUser st (EventOrganizer.organizerId a) = Some u)
  ∧ (List.length (Queries.getEventOrganizers st eventId)
     ≤ List.length (filter (λ a, EventOrganizer.eventId a = eventId)
                           (eventOrganizers st)))%nat.
Proof.
  unfold Queries.getEventOrganizers.
  set (assignments := filter (λ a, EventOrganizer.eventId a = eventId)
                             (eventOrganizers st)).
  assert (Heq : match assignments with
                | [] => []
                | _ :: _ => omap (λ o, o) (Storage.getUser st
                              <$> (EventOrganizer.organizerId <$> assignments))
                end
                = omap (λ o, o) (Storage.getUser st
                     <$> (EventOrganizer.organizerId <$> assignments)))
    by (by destruct assignments).
  rewrite Heq. clear Heq. split.
  - intros u. rewrite list_elem_of_omap. split.
    + intros (o & Ho & ->).
      apply list_elem_of_fmap in Ho as (oid & Hres & Hoid).
      apply list_elem_of_fmap in Hoid as (a & -> & Ha).
      apply list_elem_of_filter in Ha as [He Ha]. by exists a.
    + intros (a & Ha & He & Hres). exists (Some u). split; [|reflexivity].
      apply list_elem_of_fmap. exists (EventOrganizer.organizerId a).
      split; [by rewrite Hres|].
      apply list_elem_of_fmap. exists a. split; [reflexivity|].
      apply list_elem_of_filter. by split.
  - generalize assignments. intros l. induction l as [|a l IH]; [reflexivity|].
    cbn [fmap list_fmap omap list_omap List.length].
    destruct (Storage.getUser st (EventOrganizer.organizerId a));
      cbn [List.length]; cbn in IH; lia.
Qed.

(** ** Counts *)

(** X13. In every table of counts that [getStats] gives, the active events
    are at most the events and the guests checked in today are at most the
    guests; for a role other than super_admin, admin and event_manager, and
    for an event manager without a user id, the table is empty. *)
Theorem getStats_bounds {E : Env} (today : Z) (st : Store) (role : string)
    (userId : option string) :
  let m := Queries.getStats today st role userId in
  (∀ a t, m !! "activeEvents" = Some a -> m !! "totalEvents" = Some t -> (a ≤ t)%nat)
  ∧ (∀ c g, m !! "checkedInToday" = Some c -> m !! "totalGuests" = Some g -> (c ≤ g)%nat)
  ∧ (role ∉ [super_admin; admin; event_manager] -> m = ∅)
  ∧ (role = event_manager -> userId = None ∨ userId = Some "" -> m = ∅).
Proof.
  cbv zeta. unfold Queries.getStats.
  destruct (decide (role = super_admin)) as [Hs|Hs].
  { rewrite (bool_decide_eq_true_2 _ Hs). repeat split.
    - intros a t Ha Ht. simplify_map_eq. apply length_filter.
    - intros c g Hc Hg. simplify_map_eq.
    - intros Hn. exfalso. apply Hn. rewrite Hs. set_solver.
    - intros Hm. rewrite Hm in Hs. discriminate. }
  rewrite (bool_decide_eq_false_2 _ Hs).
  destruct (decide (role = admin)) as [Ha|Ha].
  { rewrite (bool_decide_eq_true_2 _ Ha). repeat split.
    - intros a t Hact Ht. simplify_map_eq. apply length_filter.
    - intros c g Hc Hg. simplify_map_eq.
    - intros Hn. exfalso. apply Hn. rewrite Ha. set_solver.
    - intros Hm. rewrite Hm in Ha. discriminate. }
  rewrite (bool_decide_eq_false_2 _ Ha).
  destruct (decide (role = event_manager)) as [Hm|Hm].
  - rewrite (bool_decide_eq_true_2 _ Hm). cbn [andb].
    destruct (Js.truthy_opt userId) eqn:Hu.
    + repeat split.
      * intros a t Hact Ht. simplify_map_eq. apply length_filter.
      * intros c g Hc Hg. simplify_map_eq. apply length_filter.
      * intros Hn. exfalso. apply Hn. rewrite Hm. set_solver.
      * intros _ [-> | ->]; discriminate.
    + repeat split; intros; simplify_map_eq; done.
  - rewrite (bool_decide_eq_false_2 _ Hm). cbn [andb].
    repeat split; intros; simplify_map_eq; done.
Qed.

(** ** A deleted account *)

(** X14. After [deleteUser] the id resolves no more and every other id
    resolves as before; a guest that the deleted account had checked in is
    still a duplicate with its original time, and the name in the answer is
    "unknown". *)
Theorem deleteUser_then_duplicate {E : Env} (now : Z) (caller : User.t)
    (guestId by_ : string) (st : Store) (g : Guest.t) :
  Storage.getGuest st guestId = Some g ->
  Guest.isCheckedIn g = true ->
  Guest.checkedInBy g = Some by_ ->
  (User.role caller = organizer ->
   Routes.organizerHasAccess st (User.id caller) (Guest.eventId g) = true) ->
  let st' := Queries.deleteUser by_ st in
  Storage.getUser st' by_ = None
  ∧ (∀ id, id ≠ by_ -> Storage.getUser st' id = Storage.getUser st id)
  ∧ Routes.checkIn now caller guestId st'
    = (reply 200 (JDuplicate g msg_duplicate (Guest.checkedInAt g) msg_unknown), st').
Proof.
  intros Hg Hin Hby Hacc. cbv zeta.
  assert (Hgone : Storage.getUser (Queries.deleteUser by_ st) by_ = None).
  { unfold Storage.getUser, Queries.deleteUser. cbn [users].
    rewrite list_filter_filter. apply head_None.
    induction (users st) as [|u l IH]; [reflexivity|].
    rewrite filter_cons_False; [exact IH | tauto]. }
  split; [exact Hgone|]. split.
  - intros id Hne. unfold Storage.getUser, Queries.deleteUser. cbn [users].
    rewrite list_filter_filter. f_equal. apply list_filter_iff.
    intros u. split; [tauto|]. intros Hu. split; [exact Hu | congruence].
  - unfold Routes.checkIn.
    change (Storage.getGuest (Queries.deleteUser by_ st) guestId)
      with (Storage.getGuest st guestId).
    rewrite Hg, Hin.
    change (Routes.organizerHasAccess (Queries.deleteUser by_ st) (User.id caller)
              (Guest.eventId g))
      with (Routes.organizerHasAccess st (User.id caller) (Guest.eventId g)).
    assert (Hgate : bool_decide (User.role caller = organizer)
                    && negb (Routes.organizerHasAccess st (User.id caller)
                               (Guest.eventId g)) = false).
    { destruct (decide (User.role caller = organizer)) as [Hr|Hr].
      - by rewrite (Hacc Hr), andb_false_r.
      - by rewrite (bool_decide_eq_false_2 _ Hr). }
    rewrite Hgate. f_equal. f_equal. f_equal.
    rewrite checkedInByName_cases, Hby, Hgone. by destruct (bool_decide (by_ = "")).
Qed.

Lemma deleteUser_then_duplicate_witness :
  Routes.checkIn (E := Sample.env) 500 Sample.m1 "g2" Sample.db
  = (reply 200 (JDuplicate Sample.g2 msg_duplicate (Some 100) "Omar"), Sample.db)
  ∧ Routes.checkIn (E := Sample.env) 500 Sample.m1 "g2" (Queries.deleteUser "o1" Sample.db)
    = (reply 200 (JDuplicate Sample.g2 msg_duplicate (Some 100) msg_unknown),
       Queries.deleteUser "o1" Sample.db).
Proof.
  split; [reflexivity|].
  destruct (deleteUser_then_duplicate (E := Sample.env) 500 Sample.m1 "g2" "o1"
              Sample.db Sample.g2) as (_ & _ & Hdup);
    [reflexivity | reflexivity | reflexivity | discriminate | exact Hdup].
Defined.

(** ** Uploads and ownership *)

Lemma createGuests_appends {E : Env} (rows : list InsertGuest.t) (st : Store) :
  (Storage.createGuests rows st).1
  = imap (λ i g, InsertGuest.inserted (gen_random_uuid (serial st + i)%nat) g) rows
  ∧ guests (Storage.createGuests rows st).2
    = (guests st ++ (Storage.createGuests rows st).1)%list
  ∧ users (Storage.createGuests rows st).2 = users st
  ∧ events (Storage.createGuests rows st).2 = events st
  ∧ eventOrganizers (Storage.createGuests rows st).2 = eventOrganizers st
  ∧ auditLogs (Storage.createGuests rows st).2 = auditLogs st.
Proof.
  unfold Storage.createGuests. destruct rows; cbn [fst snd guests]; [|done].
  by rewrite app_nil_r.
Qed.

(** X15. An upload by the owner of the event appends one guest per row of
    the sheet to the guests, each a guest of that event that is not checked
    in, and appends one audit entry "upload_guests" that tells the number
    of rows; accounts, events and assignments are untouched. For an empty
    sheet no guest is added and the audit entry is still written. *)
Theorem upload_appends_invited {E : Env} (now : Z) (user : User.t)
    (eventId : string) (data : list (gmap string Js.cell)) (st : Store)
    (event : Event.t) :
  Storage.getEvent st eventId = Some event ->
  Event.eventManagerId event = User.id user ->
  let r := Routes.uploadGuests now user eventId (Some data) st in
  ∃ created log,
    guests r.2 = (guests st ++ created)%list
    ∧ List.length created = List.length data
    ∧ Forall (λ g, Guest.eventId g = eventId ∧ Guest.isCheckedIn g = false
                   ∧ Guest.checkedInAt g = None ∧ Guest.checkedInBy g = None) created
    ∧ auditLogs r.2 = (auditLogs st ++ [log])%list
    ∧ AuditLog.action log = "upload_guests"
    ∧ AuditLog.eventId log = eventId
    ∧ AuditLog.userId log = User.id user
    ∧ AuditLog.details log = "تم رفع " ++ pretty (List.length data) ++ " ضيف"
    ∧ users r.2 = users st ∧ events r.2 = events st
    ∧ eventOrganizers r.2 = eventOrganizers st.
Proof.
  intros Hev Hown. cbv zeta. unfold Routes.uploadGuests.
  rewrite Hev, (bool_decide_eq_true_2 _ Hown). cbn [negb].
  set (rows := imap (λ i r, Routes.guestOfRow eventId (serial st + i)%nat r) data).
  destruct (createGuests_appends rows st) as (Hc & Hg & Hu & He & Ho & Ha).
  destruct (Storage.createGuests rows st) as [created st1].
  cbn [fst snd] in Hc, Hg, Hu, He, Ho, Ha.
  unfold Storage.createAuditLog. cbn [fst snd].
  eexists created, _. cbn [guests auditLogs users events eventOrganizers].
  assert (Hlen : List.length created = List.length data).
  { rewrite Hc. unfold rows. by rewrite !length_imap. }
  split; [exact Hg|]. split; [exact Hlen|]. split.
  { apply Forall_forall. intros g Hin.
    apply list_elem_of_lookup in Hin as [i Hi].
    rewrite Hc, list_lookup_imap in Hi. unfold rows in Hi.
    rewrite list_lookup_imap in Hi.
    destruct (data !! i); [|discriminate]. by injection Hi as <-. }
  rewrite Ha. split; [reflexivity|].
  cbn [AuditLog.action AuditLog.eventId AuditLog.userId AuditLog.details].
  rewrite Hlen. by repeat split.
Qed.

Lemma upload_appends_invited_witness :
  ∃ created log,
    guests (Routes.uploadGuests (E := Sample.env) 500 Sample.m1 "e1" (Some [])
              Sample.db).2
    = (guests Sample.db ++ created)%list
    ∧ List.length created = 0%nat
    ∧ auditLogs (Routes.uploadGuests (E := Sample.env) 500 Sample.m1 "e1" (Some [])
                   Sample.db).2
      = [log].
Proof.
  destruct (upload_appends_invited (E := Sample.env) 500 Sample.m1 "e1" [] Sample.db
              Sample.e1) as (created & log & Hg & Hl & _ & Ha & _);
    [reflexivity | reflexivity |].
  exists created, log. by repeat split.
Defined.

(** X16. An event manager who does not own an existing event is answered
    403 by every route that names the event (read, delete, guests, upload,
    organizers, assign, remove, audit log), and the store and the session
    stay as they were. *)
Theorem foreign_manager_refused {E : Env} (sid : string) (user : User.t)
    (eid : string) (st : Store) (event : Event.t) (req : Api.Request)
    (now : Z) (file : option (list (gmap string Js.cell))) (organizerId : string) :
  sid ≠ "" ->
  Storage.getUser st sid = Some user ->
  User.role user = event_manager ->
  Storage.getEvent st eid = Some event ->
  Event.eventManagerId event ≠ User.id user ->
  req ∈ [Api.GetEvent eid; Api.DeleteEvent eid; Api.GetGuests eid;
         Api.PostUploadGuests now eid file; Api.GetEventOrganizers eid;
         Api.PostOrganizers eid organizerId; Api.DeleteOrganizers eid organizerId;
         Api.GetAuditLogs eid] ->
  Api.serve req (Some sid) st
  = Api.mkServed (Api.refuse 403 msg_forbidden) (Some sid) st.
Proof.
  intros Hsid Hget Hrole Hev Hown Hreq.
  assert (Hgate : ∀ roles, event_manager ∈ roles ->
            Routes.requireRole roles (Some sid) st = inr user).
  { intros roles Hin. apply requireRole_resolves; try done. by rewrite Hrole. }
  assert (Hauth : Routes.requireAuth (Some sid) = None).
  { unfold Routes.requireAuth, Js.truthy_opt, Js.truthy.
    by rewrite (bool_decide_eq_false_2 _ Hsid). }
  role_cases Hreq; subst req; cbn [Api.serve]; unfold Api.read, Api.wrote.
  - unfold Api.getEventById. rewrite Hauth, Hev. cbn [default from_option]. unfold id.
    by rewrite Hget, (bool_decide_eq_true_2 _ Hrole), (bool_decide_eq_false_2 _ Hown).
  - unfold Api.deleteEventById. rewrite Hgate by set_solver.
    by rewrite Hev, (bool_decide_eq_false_2 _ Hown).
  - unfold Api.getGuests. rewrite Hauth. cbn [default from_option]. unfold id.
    by rewrite Hget, Hev, (bool_decide_eq_true_2 _ Hrole),
      (bool_decide_eq_false_2 _ Hown).
  - unfold Routes.postUploadGuests, Routes.uploadGuests. rewrite Hgate by set_solver.
    by rewrite Hev, (bool_decide_eq_false_2 _ Hown).
  - unfold Api.getOrganizersOfEvent. rewrite Hauth. cbn [default from_option]. unfold id.
    by rewrite Hget, Hev, (bool_decide_eq_true_2 _ Hrole),
      (bool_decide_eq_false_2 _ Hown).
  - unfold Routes.postOrganizers, Routes.assignOrganizer. rewrite Hgate by set_solver.
    by rewrite Hev, (bool_decide_eq_false_2 _ Hown).
  - unfold Routes.deleteOrganizers, Routes.removeOrganizer. rewrite Hgate by set_solver.
    by rewrite Hev, (bool_decide_eq_false_2 _ Hown).
  - unfold Api.getAuditLogs. rewrite Hgate by set_solver.
    by rewrite Hev, (bool_decide_eq_true_2 _ Hrole), (bool_decide_eq_false_2 _ Hown).
Qed.

Lemma foreign_manager_refused_witness :
  Api.serve (E := Sample.env) (Api.GetGuests "e1") (Some "m2") Sample.db
  = Api.mkServed (Api.refuse 403 msg_forbidden) (Some "m2") Sample.db.
Proof.
  apply (foreign_manager_refused (E := Sample.env) "m2" Sample.m2 "e1" Sample.db
           Sample.e1 (Api.GetGuests "e1") 0 None "");
    [discriminate | reflexivity | reflexivity | reflexivity | discriminate | set_solver].
Defined.

(** ** One client, several requests *)

(** X17. Logging out is effective: after a logout, whatever the session
    was, and until the client logs in again, the requests of that client
    leave the session empty and the store as it was; each of them other
    than a logout is answered 401 "unauthorized", and a repeated logout is
    answered 200. *)
Theorem logout_then_refused {E : Env} (session : option string)
    (reqs : list Api.Request) (st : Store) :
  Forall (λ req, match req with Api.PostLogin _ => False | _ => True end) reqs ->
  Api.serveAll (Api.PostLogout :: reqs) session st = (None, st)
  ∧ Forall (λ req, match req with
                   | Api.PostLogout => Api.view (Api.serve req None st)
                                       = VResponse (reply 200 JOk)
                   | _ => Api.view (Api.serve req None st)
                          = Api.refuse 401 msg_unauthorized
                   end) reqs.
Proof.
  intros Hreqs.
  assert (Hone : ∀ req,
            match req with Api.PostLogin _ => False | _ => True end ->
            Api.session_after (Api.serve req None st) = None
            ∧ Api.store_after (Api.serve req None st) = st
            ∧ match req with
              | Api.PostLogout => Api.view (Api.serve req None st)
                                  = VResponse (reply 200 JOk)
              | _ => Api.view (Api.serve req None st)
                     = Api.refuse 401 msg_unauthorized
              end).
  { intros req Hreq. destruct req; try (destruct Hreq); unfold_routes;
      rewrite ?(no_session_requireRole _ None st (or_introl eq_refl));
      by repeat split. }
  unfold Api.serveAll.
  cbn [foldl Api.serve Api.logout fst snd Api.session_after Api.store_after]. split.
  - induction Hreqs as [|req reqs Hreq _ IH]; [reflexivity|].
    cbn [foldl]. destruct (Hone req Hreq) as (-> & -> & _). exact IH.
  - eapply Forall_impl; [exact Hreqs|]. intros req Hreq.
    by destruct (Hone req Hreq) as (_ & _ & Hv).
Qed.

Lemma logout_then_refused_witness :
  Api.serveAll (E := Sample.env)
    [Api.PostLogout; Api.PostCheckIn 500 "g1";
     Api.PostOrganizers "e1" "o2"; Api.GetEvents] (Some "m1") Sample.db
  = (None, Sample.db).
Proof.
  apply (logout_then_refused (E := Sample.env) (Some "m1")
           [Api.PostCheckIn 500 "g1"; Api.PostOrganizers "e1" "o2"; Api.GetEvents]
           Sample.db).
  repeat constructor.
Defined.

(** ** Writing, then reading *)

(** X18. After the owner assigns an account to an event, the account is
    among the organizers listed for the event, and, when the event is
    active, the event is among the events listed for that account. *)
Theorem assign_then_listed {E : Env} (user : User.t) (eventId organizerId : string)
    (st : Store) (event : Event.t) (o : User.t) :
  Storage.getEvent st eventId = Some event ->
  Event.eventManagerId event = User.id user ->
  Storage.getUser st organizerId = Some o ->
  let st' := (Routes.assignOrganizer user eventId organizerId st).2 in
  o ∈ Queries.getEventOrganizers st' eventId
  ∧ (Event.isActive event = true ->
     event ∈ Storage.getOrganizerEvents st' organizerId).
Proof.
  intros Hev Hown Ho. cbv zeta.
  assert (Hst : (Routes.assignOrganizer user eventId organizerId st).2
                = (Storage.assignOrganizer eventId organizerId st).2).
  { unfold Routes.assignOrganizer. by rewrite Hev, (bool_decide_eq_true_2 _ Hown). }
  rewrite Hst. set (st' := (Storage.assignOrganizer eventId organizerId st).2).
  set (a := EventOrganizer.mk (gen_random_uuid (serial st)) eventId organizerId).
  assert (Ha : a ∈ eventOrganizers st').
  { unfold st', Storage.assignOrganizer. cbn [snd eventOrganizers].
    apply elem_of_app. right. by apply list_elem_of_singleton. }
  split.
  - unfold Queries.getEventOrganizers.
    assert (Hin : a ∈ filter (λ a', EventOrganizer.eventId a' = eventId)
                             (eventOrganizers st'))
      by (apply list_elem_of_filter; by split).
    destruct (filter _ (eventOrganizers st')) as [|a0 l] eqn:Hf.
    { by apply not_elem_of_nil in Hin. }
    rewrite <- Hf in *. apply list_elem_of_omap. exists (Some o). split; [|reflexivity].
    apply list_elem_of_fmap. exists organizerId. split; [by rewrite <- Ho|].
    apply list_elem_of_fmap. by exists a.
  - intros Hact. by apply (getOrganizerEvents_lists st' a event).
Qed.

Lemma assign_then_listed_witness :
  Storage.getOrganizerEvents Sample.db "o2" = []
  ∧ Sample.e1 ∈ Storage.getOrganizerEvents
                   (Routes.assignOrganizer (E := Sample.env) Sample.m1 "e1" "o2"
                      Sample.db).2 "o2".
Proof.
  split; [reflexivity|].
  destruct (assign_then_listed (E := Sample.env) Sample.m1 "e1" "o2" Sample.db
              Sample.e1 Sample.o2) as [_ Hlisted];
    [reflexivity | reflexivity | reflexivity |].
  by apply Hlisted.
Defined.

(** X19. After an event manager creates an event, with a name and a date
    text that [new Date] reads, GET /api/events lists the new event for
    that manager, and lists it for no other event manager. *)
Theorem created_event_listed {E : Env} (now : Z) (sid : string) (user : User.t)
    (body : EventBody) (st : Store) (name date : string) (t : Z) :
  sid ≠ "" ->
  Storage.getUser st sid = Some user ->
  User.role user = event_manager ->
  ev_name body = Some name -> name ≠ "" ->
  ev_date body = Some date -> date ≠ "" ->
  newDate date = Some t ->
  let st' := (Routes.postEvents now (Some sid) body st).2 in
  let event :=
    Event.mk (gen_random_uuid (serial st)) name (ev_description body)
             (ev_location body) t (ev_startTime body)
             (ev_endTime body) (User.id user) true now in
  (∃ l, Api.getEventList (Some sid) st' = VEvents l ∧ event ∈ l)
  ∧ ∀ sid2 other l,
      sid2 ≠ "" -> Storage.getUser st sid2 = Some other ->
      User.role other = event_manager -> User.id other ≠ User.id user ->
      Api.getEventList (Some sid2) st' = VEvents l -> event ∉ l.
Proof.
  intros Hsid Hget Hrole Hname Hn Hdate Hd Ht. cbv zeta.
  unfold Routes.postEvents.
  rewrite (requireRole_resolves [event_manager] sid st user Hsid Hget)
    by (rewrite Hrole; by apply list_elem_of_singleton).
  unfold Routes.createEvent. rewrite Hname, Hdate.
  unfold Js.truthy_opt, Js.truthy.
  rewrite (bool_decide_eq_false_2 _ Hn), (bool_decide_eq_false_2 _ Hd).
  cbn [negb default from_option]. unfold id. rewrite Ht.
  unfold Storage.createEvent, Storage.createAuditLog, InsertEvent.inserted.
  cbn [fst snd InsertEvent.name InsertEvent.description InsertEvent.location
       InsertEvent.date InsertEvent.startTime InsertEvent.endTime
       InsertEvent.eventManagerId InsertEvent.isActive].
  set (event := Event.mk _ name _ _ _ _ _ (User.id user) true now).
  set (st' := mkStore _ _ _ _ _ _).
  assert (Hauth : ∀ s, s ≠ "" -> Routes.requireAuth (Some s) = None).
  { intros s Hs. unfold Routes.requireAuth, Js.truthy_opt, Js.truthy.
    by rewrite (bool_decide_eq_false_2 _ Hs). }
  assert (Hmine : ∀ s u, s ≠ "" -> Storage.getUser st s = Some u ->
            User.role u = event_manager ->
            Api.getEventList (Some s) st'
            = VEvents (Queries.getEventsByManager st' (User.id u))).
  { intros s u Hs Hu Hr. unfold Api.getEventList. rewrite (Hauth s Hs).
    cbn [default from_option]. unfold id.
    change (Storage.getUser st' s) with (Storage.getUser st s).
    by rewrite Hu, (bool_decide_eq_true_2 _ Hr). }
  assert (Hlist : ∀ managerId e,
            e ∈ Queries.getEventsByManager st' managerId
            ↔ e ∈ (events st ++ [event])%list ∧ Event.eventManagerId e = managerId).
  { intros managerId e. unfold Queries.getEventsByManager.
    destruct (orderByDesc_sorted Event.date
                (filter (λ e, Event.eventManagerId e = managerId) (events st')))
      as [_ Hperm].
    rewrite Hperm, list_elem_of_filter. unfold st'. cbn [events]. tauto. }
  split.
  - eexists. split; [by apply (Hmine sid user)|].
    apply Hlist. split; [|reflexivity].
    apply elem_of_app. right. by apply list_elem_of_singleton.
  - intros sid2 other l Hs2 Hget2 Hr2 Hne.
    rewrite (Hmine sid2 other Hs2 Hget2 Hr2). intros [= <-] Hin.
    apply Hlist in Hin as [_ Hown]. cbn in Hown. congruence.
Qed.

Lemma created_event_listed_witness :
  ∃ l, Api.getEventList (Some "m2")
         (Routes.postEvents (E := Sample.env) 500 (Some "m2")
            (mkEventBody (Some "Expo") None None (Some "2026-01-01") None None)
            Sample.db).2
       = VEvents l
       ∧ Event.mk "row-20" "Expo" None None 1767225600000 None None "m2" true 500 ∈ l.
Proof.
  destruct (created_event_listed (E := Sample.env) 500 "m2" Sample.m2
              (mkEventBody (Some "Expo") None None (Some "2026-01-01") None None)
              Sample.db "Expo" "2026-01-01" 1767225600000) as [Hmine _];
    try reflexivity; try discriminate.
  exact Hmine.
Defined.

(** ** Updating an event *)

(** X20. PATCH /api/events/:id for a caller whose session resolves to an
    event manager: an unknown id is answered 404, an event of another
    manager 403 and a body that the update refuses 500, each with the store
    as it was. For the owner and a body that the update takes, the answer
    is the updated row; it is stored, the events with another id stay, as
    many events are stored as before, and the accounts, guests, assignments
    and audit log are as they were: an update writes no audit entry. *)
Theorem patchEvent_by_owner {E : Env} (sid id : string) (user : User.t)
    (body : Js.json) (st : Store) :
  sid ≠ "" ->
  Storage.getUser st sid = Some user ->
  User.role user = event_manager ->
  let r := Api.serve (Api.PatchEvent id body) (Some sid) st in
  Api.session_after r = Some sid
  ∧ (Storage.getEvent st id = None ->
     Api.view r = Api.refuse 404 msg_event_not_found ∧ Api.store_after r = st)
  ∧ ∀ event, Storage.getEvent st id = Some event ->
      (Event.eventManagerId event ≠ User.id user ->
       Api.view r = Api.refuse 403 msg_forbidden ∧ Api.store_after r = st)
      ∧ (Event.eventManagerId event = User.id user -> setEvent body = None ->
         Api.view r = Api.refuse 500 msg_update_failed ∧ Api.store_after r = st)
      ∧ (Event.eventManagerId event = User.id user ->
         ∀ set, setEvent body = Some set ->
           Api.view r = VUpdated (Some (set event))
           ∧ set event ∈ events (Api.store_after r)
           ∧ (∀ e, e ∈ events st -> Event.id e ≠ id -> e ∈ events (Api.store_after r))
           ∧ List.length (events (Api.store_after r)) = List.length (events st)
           ∧ users (Api.store_after r) = users st
           ∧ guests (Api.store_after r) = guests st
           ∧ eventOrganizers (Api.store_after r) = eventOrganizers st
           ∧ auditLogs (Api.store_after r) = auditLogs st).
Proof.
  intros Hsid Hget Hrole. cbv zeta. cbn [Api.serve Api.session_after].
  unfold Api.patchEventById.
  rewrite (requireRole_resolves [event_manager] sid st user Hsid Hget)
    by (rewrite Hrole; by apply list_elem_of_singleton).
  split; [reflexivity|]. split.
  - intros ->. by split.
  - intros event Hev. rewrite Hev. split; [|split].
    + intros Hown. by rewrite (bool_decide_eq_false_2 _ Hown).
    + intros Hown Hset. by rewrite (bool_decide_eq_true_2 _ Hown), Hset.
    + intros Hown set Hset. rewrite (bool_decide_eq_true_2 _ Hown), Hset.
      cbn [negb Queries.updateEvent Api.view Api.store_after fst snd
           users events guests eventOrganizers auditLogs].
      assert (Hin : event ∈ events st ∧ Event.id event = id).
      { apply head_Some_elem_of in Hev. by apply list_elem_of_filter in Hev as [? ?]. }
      destruct Hin as [Hin Hid].
      split_and!; try reflexivity.
      * unfold Storage.getEvent in Hev.
        destruct (filter _ (events st)); [discriminate|].
        by injection Hev as ->.
      * apply list_elem_of_fmap. exists event. split; [|exact Hin].
        by rewrite (bool_decide_eq_true_2 _ Hid).
      * intros e He Hne. apply list_elem_of_fmap. exists e. split; [|exact He].
        by rewrite (bool_decide_eq_false_2 _ Hne).
      * apply length_fmap.
Qed.

Lemma patchEvent_by_owner_witness :
  Api.view (Api.serve (E := Sample.env)
              (Api.PatchEvent "e1" (Js.Obj [("isActive", Js.Bool false)]))
              (Some "m1") Sample.db)
  = VUpdated (Some (Event.mk "e1" "Gala" None None 1000 None None "m1" false 0))
  ∧ Api.view (Api.serve (E := Sample.env)
                (Api.PatchEvent "e1" (Js.Obj [("isActive", Js.Bool false)]))
                (Some "m2") Sample.db)
    = Api.refuse 403 msg_forbidden.
Proof.
  split.
  - destruct (patchEvent_by_owner (E := Sample.env) "m1" "e1" Sample.m1
                (Js.Obj [("isActive", Js.Bool false)]) Sample.db)
      as (_ & _ & H); [discriminate | reflexivity | reflexivity |].
    destruct (H Sample.e1) as (_ & _ & Hupd); [reflexivity|].
    exact (proj1 (Hupd eq_refl _ eq_refl)).
  - destruct (patchEvent_by_owner (E := Sample.env) "m2" "e1" Sample.m2
                (Js.Obj [("isActive", Js.Bool false)]) Sample.db)
      as (_ & _ & H); [discriminate | reflexivity | reflexivity |].
    destruct (H Sample.e1) as (Hforeign & _); [reflexivity|].
    apply Hforeign. discriminate.
Defined.
